(** * SerialManager: the lock-guarded serial-port wrapper of serial_manager.py

    A shallow embedding of [SerialManager] and of the module-level import
    of pyserial, followed by the properties of the connection-management
    contract.

    The methods are written in a small monad over the state they touch:
    the manager object ([cfg], [_ser], [_lock]) and the history of calls
    made into pyserial.  A computation returns, raises a Python exception,
    or blocks for ever on [threading.Lock.acquire]. *)

From Stdlib Require Import String Ascii List ZArith Bool Lia Floats.
From Stdlib Require Import DecimalString Uint63 Sorted Permutation.
From Stdlib Require Import Strings.Byte.
Import ListNotations.

Local Open Scope string_scope.
Local Open Scope Z_scope.

(* ================================================================== *)
(** ** Data model *)
(* ================================================================== *)

(** The Python exceptions that reach this module: the three it raises
    itself or provokes ([RuntimeError], [ValueError], [AttributeError]) and
    the ones pyserial raises ([SerialException] and [OSError]). All of them
    derive from [Exception]. *)
Inductive exn : Type :=
| RuntimeError (msg : string)
| ValueError (msg : string)
| AttributeError (msg : string)
| SerialException (msg : string)
| OSError (msg : string).

(** [@dataclass class SerialConfig], with its two defaulted fields. *)
Record SerialConfig : Type := mkSerialConfig {
  baudrate : Z;
  timeout_s : float
}.

(** [SerialConfig()]: baudrate 115200, timeout 0.1 (the binary64 closest
    to one tenth, as the Python literal denotes). *)
Definition SerialConfig_default : SerialConfig :=
  {| baudrate := 115200; timeout_s := 0x1.999999999999ap-4%float |}.

(** A [serial.Serial] object, as far as this module looks at it: the
    constructor arguments and the [is_open] attribute. *)
Record Serial : Type := mkSerial {
  ser_port : string;
  ser_baudrate : Z;
  ser_timeout : float;
  is_open : bool
}.

(** The object after a successful [close()]: the same port and
    settings, [is_open] false. *)
Definition closed (h : Serial) : Serial :=
  {| ser_port := ser_port h;
     ser_baudrate := ser_baudrate h;
     ser_timeout := ser_timeout h;
     is_open := false |}.

(** An entry of [list_ports.comports()]; only [device] is read. *)
Record ListPortInfo : Type := mkListPortInfo {
  device : string;
  description : string
}.

(** The instance attributes set by [SerialManager.__init__].  [_lock] is a
    [threading.Lock]: [true] when it is held. *)
Record SerialManager : Type := mkSerialManager {
  cfg : SerialConfig;
  _ser : option Serial;
  _lock : bool
}.

(** A call into pyserial together with whether it raised. *)
Inductive dev_call : Type :=
| CallOpen (port : string) (baud : Z) (timeout : float)
| CallClose (h : Serial)
| CallWrite (h : Serial) (data : list byte)
| CallRead (h : Serial) (n : Z)
| CallComports.

Record dev_event : Type := mkEvent {
  ev_call : dev_call;
  ev_ok : bool
}.

(** The calls made so far, most recent first. *)
Definition history : Type := list dev_event.

(** pyserial and the operating system behind it.  Each entry answers a
    call from the history of the calls before it, so that any behaviour of
    the device, failing or not, is some [Library]. *)
Record Library : Type := mkLibrary {
  lib_open : history -> string -> Z -> float -> option exn;
  lib_close : history -> Serial -> option exn;
  lib_write : history -> Serial -> list byte -> option exn;
  lib_read : history -> Serial -> Z -> exn + list byte;
  lib_comports : history -> exn + list ListPortInfo
}.

(** What a method runs against: the manager and the device history. *)
Record World : Type := mkWorld {
  mgr : SerialManager;
  log : history
}.

(* ================================================================== *)
(** ** The monad of method bodies *)
(* ================================================================== *)

Inductive outcome (A : Type) : Type :=
| Returned (a : A) (w : World)
| Raised (e : exn) (w : World)
| Blocked (w : World).

Arguments Returned {A} a w.
Arguments Raised {A} e w.
Arguments Blocked {A} w.

Definition M (A : Type) : Type := World -> outcome A.

Definition ret {A} (a : A) : M A := fun w => Returned a w.

Definition bind {A B} (m : M A) (k : A -> M B) : M B :=
  fun w =>
    match m w with
    | Returned a w' => k a w'
    | Raised e w' => Raised e w'
    | Blocked w' => Blocked w'
    end.

Definition raise {A} (e : exn) : M A := fun w => Raised e w.

(** [try: body / except Exception: handler]. *)
Definition try_except {A} (body : M A) (handler : exn -> M A) : M A :=
  fun w =>
    match body w with
    | Returned a w' => Returned a w'
    | Raised e w' => handler e w'
    | Blocked w' => Blocked w'
    end.

Declare Scope py_scope.
Delimit Scope py_scope with py.
Notation "x <- c1 ;; c2" := (bind c1 (fun x => c2))
  (at level 100, c1 at next level, right associativity) : py_scope.
Notation "c1 ;; c2" := (bind c1 (fun _ => c2))
  (at level 100, right associativity) : py_scope.
Local Open Scope py_scope.

Definition set_lock (b : bool) (w : World) : World :=
  {| mgr := {| cfg := cfg (mgr w); _ser := _ser (mgr w); _lock := b |};
     log := log w |}.

Definition set_ser (s : option Serial) : M unit :=
  fun w =>
    Returned tt
      {| mgr := {| cfg := cfg (mgr w); _ser := s; _lock := _lock (mgr w) |};
         log := log w |}.

Definition get_ser : M (option Serial) := fun w => Returned (_ser (mgr w)) w.
Definition get_cfg : M SerialConfig := fun w => Returned (cfg (mgr w)) w.

Definition record (c : dev_call) (ok : bool) (w : World) : World :=
  {| mgr := mgr w; log := {| ev_call := c; ev_ok := ok |} :: log w |}.

(** [with self._lock: body].  [threading.Lock] is not reentrant:
    [acquire] on a held lock waits for a release, whoever holds it.  The
    lock is released when the body returns and when it raises. *)
Definition with_lock {A} (body : M A) : M A :=
  fun w =>
    if _lock (mgr w) then Blocked w
    else
      match body (set_lock true w) with
      | Returned a w' => Returned a (set_lock false w')
      | Raised e w' => Raised e (set_lock false w')
      | Blocked w' => Blocked w'
      end.

(* ================================================================== *)
(** ** The module and the class *)
(* ================================================================== *)

Section SerialManagerMethods.

(** The module-level flag set by the guarded import: [true] when
    [import serial] succeeded, [false] when it raised (and [serial] and
    [list_ports] were bound to [None]). *)
Variable HAS_SERIAL : bool.

(** The behaviour of pyserial where it is installed. *)
Variable pyserial : Library.

Definition NoneType_has_no (attr : string) : exn :=
  AttributeError ("'NoneType' object has no attribute '" ++ attr ++ "'").

(** [serial.Serial(port=..., baudrate=..., timeout=...)].  pyserial opens
    the port in the constructor when a port is given, so the object it
    returns has [is_open] set. *)
Definition serial_Serial (port : string) (baud : Z) (timeout : float)
  : M Serial :=
  if HAS_SERIAL then
    fun w =>
      match lib_open pyserial (log w) port baud timeout with
      | Some e => Raised e (record (CallOpen port baud timeout) false w)
      | None =>
          Returned (mkSerial port baud timeout true)
                   (record (CallOpen port baud timeout) true w)
      end
  else raise (NoneType_has_no "Serial").

(** [list_ports.comports()]. *)
Definition list_ports_comports : M (list ListPortInfo) :=
  if HAS_SERIAL then
    fun w =>
      match lib_comports pyserial (log w) with
      | inl e => Raised e (record CallComports false w)
      | inr ps => Returned ps (record CallComports true w)
      end
  else raise (NoneType_has_no "comports").

(** [h.close()], for the object [h] that [self._ser] references, the
    only one this module closes.  A close that succeeds leaves the object
    with [is_open] false, and the field still references it; pyserial
    clears the flag after the port is released, so a close that raises
    leaves it set. *)
Definition Serial_close (h : Serial) : M unit :=
  fun w =>
    match lib_close pyserial (log w) h with
    | Some e => Raised e (record (CallClose h) false w)
    | None =>
        Returned tt
          (record (CallClose h) true
             {| mgr := {| cfg := cfg (mgr w);
                          _ser := Some (closed h);
                          _lock := _lock (mgr w) |};
                log := log w |})
    end.

(** [h.write(data)]; the number of bytes written is discarded. *)
Definition Serial_write (h : Serial) (data : list byte) : M unit :=
  fun w =>
    match lib_write pyserial (log w) h data with
    | Some e => Raised e (record (CallWrite h data) false w)
    | None => Returned tt (record (CallWrite h data) true w)
    end.

(** [h.read(n)]. *)
Definition Serial_read (h : Serial) (n : Z) : M (list byte) :=
  fun w =>
    match lib_read pyserial (log w) h n with
    | inl e => Raised e (record (CallRead h n) false w)
    | inr bs => Returned bs (record (CallRead h n) true w)
    end.

(** [SerialManager.__init__]: [cfg or SerialConfig()], no handle, a fresh
    lock.  A dataclass instance is truthy, so [cfg or SerialConfig()] is
    [cfg] unless [cfg] is [None]. *)
Definition __init__ (c : option SerialConfig) : SerialManager :=
  {| cfg := match c with Some c' => c' | None => SerialConfig_default end;
     _ser := None;
     _lock := false |}.

(** [self._ser is not None and getattr(self._ser, "is_open", False)]. *)
Definition ser_is_open (s : option Serial) : bool :=
  match s with
  | None => false
  | Some h => is_open h
  end.

Definition has_serial : M bool := ret HAS_SERIAL.

Definition is_connected : M bool :=
  with_lock (s <- get_ser ;; ret (ser_is_open s)).

Definition connect (port : string) : M unit :=
  if negb HAS_SERIAL then raise (RuntimeError "pyserial is not installed.")
  else if (port =? "")%string then raise (ValueError "Port is empty.")
  else
    with_lock (
      s <- get_ser ;;
      if ser_is_open s then ret tt
      else
        c <- get_cfg ;;
        h <- serial_Serial port (baudrate c) (timeout_s c) ;;
        set_ser (Some h)).

Definition disconnect : M unit :=
  with_lock (
    s <- get_ser ;;
    match s with
    | Some h => try_except (Serial_close h) (fun _ => ret tt)
    | None => ret tt
    end ;;
    set_ser None).

Definition list_ports_blocking : M (list string) :=
  if negb HAS_SERIAL then ret []
  else
    try_except
      (ps <- list_ports_comports ;; ret (map device ps))
      (fun _ => ret []).

Definition write (data : list byte) : M unit :=
  with_lock (
    c <- is_connected ;;
    if negb c then raise (RuntimeError "Not connected.")
    else
      s <- get_ser ;;
      match s with
      | Some h => Serial_write h data
      | None => raise (NoneType_has_no "write")
      end).

Definition read (n : Z) : M (list byte) :=
  with_lock (
    c <- is_connected ;;
    if negb c then raise (RuntimeError "Not connected.")
    else
      s <- get_ser ;;
      match s with
      | Some h => Serial_read h n
      | None => raise (NoneType_has_no "read")
      end).

(* ------------------------------------------------------------------ *)
(** *** Sequences of calls *)

(** The public operations of a manager, as a caller issues them. *)
Inductive op : Type :=
| OpHasSerial
| OpIsConnected
| OpConnect (port : string)
| OpDisconnect
| OpListPorts
| OpWrite (data : list byte)
| OpRead (n : Z).

Inductive value : Type :=
| VNone
| VBool (b : bool)
| VBytes (bs : list byte)
| VPorts (ps : list string).

Definition exec (o : op) : M value :=
  match o with
  | OpHasSerial => b <- has_serial ;; ret (VBool b)
  | OpIsConnected => b <- is_connected ;; ret (VBool b)
  | OpConnect port => connect port ;; ret VNone
  | OpDisconnect => disconnect ;; ret VNone
  | OpListPorts => ps <- list_ports_blocking ;; ret (VPorts ps)
  | OpWrite data => write data ;; ret VNone
  | OpRead n => bs <- read n ;; ret (VBytes bs)
  end.

End SerialManagerMethods.

Definition world_of {A} (o : outcome A) : World :=
  match o with
  | Returned _ w => w
  | Raised _ w => w
  | Blocked w => w
  end.

(** The call came back to its caller, with a value or an exception. *)
Definition completed {A} (o : outcome A) : bool :=
  match o with
  | Returned _ _ => true
  | Raised _ _ => true
  | Blocked _ => false
  end.

(** The state after a list of calls issued one after the other, by any
    callers, each taken from where the one before left the manager. *)
Definition run_calls (HAS_SERIAL : bool) (pyserial : Library)
  (os : list op) (w : World) : World :=
  fold_left (fun w' o => world_of (exec HAS_SERIAL pyserial o w')) os w.

(** A newly constructed manager, before any call into pyserial. *)
Definition fresh (c : option SerialConfig) : World :=
  {| mgr := __init__ c; log := [] |}.

(** The states a caller can be in: after construction, and after each
    call that came back.  A call that blocks never hands control back, so
    nothing follows it. *)
Inductive reachable (HAS_SERIAL : bool) (pyserial : Library)
  : World -> Prop :=
| reachable_fresh : forall c, reachable HAS_SERIAL pyserial (fresh c)
| reachable_call : forall o w,
    reachable HAS_SERIAL pyserial w ->
    completed (exec HAS_SERIAL pyserial o w) = true ->
    reachable HAS_SERIAL pyserial (world_of (exec HAS_SERIAL pyserial o w)).

(** Handles that a successful [serial.Serial(...)] created and on which
    [close()] has not been called since. *)
Fixpoint unclosed (l : history) : nat :=
  match l with
  | [] => 0%nat
  | e :: older =>
      match ev_call e with
      | CallOpen _ _ _ => if ev_ok e then S (unclosed older) else unclosed older
      | CallClose _ => Nat.pred (unclosed older)
      | _ => unclosed older
      end
  end.

(** Handles that a successful [serial.Serial(...)] created and that no
    successful [close()] has released since: a close that raised released
    nothing. *)
Fixpoint open_at_device (l : history) : nat :=
  match l with
  | [] => 0%nat
  | e :: older =>
      match ev_call e with
      | CallOpen _ _ _ =>
          if ev_ok e then S (open_at_device older) else open_at_device older
      | CallClose _ =>
          if ev_ok e then Nat.pred (open_at_device older)
          else open_at_device older
      | _ => open_at_device older
      end
  end.

(** The [close()] calls that raised. *)
Fixpoint failed_closes (l : history) : nat :=
  match l with
  | [] => 0%nat
  | e :: older =>
      match ev_call e with
      | CallClose _ =>
          if ev_ok e then failed_closes older else S (failed_closes older)
      | _ => failed_closes older
      end
  end.

(** Every state the manager can be seen in: after construction, and
    after any call, whether it came back or is still blocked. *)
Inductive visited (HAS_SERIAL : bool) (pyserial : Library)
  : World -> Prop :=
| visited_fresh : forall c, visited HAS_SERIAL pyserial (fresh c)
| visited_call : forall o w,
    visited HAS_SERIAL pyserial w ->
    visited HAS_SERIAL pyserial (world_of (exec HAS_SERIAL pyserial o w)).

(** The handle field is absent or holds an open handle. *)
Definition handle_absent_or_open (m : SerialManager) : Prop :=
  _ser m = None \/ exists h, _ser m = Some h /\ is_open h = true.

(** The open handles the manager holds. *)
Definition open_handles (m : SerialManager) : list Serial :=
  match _ser m with
  | Some h => if is_open h then [h] else []
  | None => []
  end.

(** What holds between calls: the lock is free, the handle field is absent
    or open, and the handles not yet closed are the ones the manager
    holds. *)
Definition consistent (w : World) : Prop :=
  _lock (mgr w) = false /\
  handle_absent_or_open (mgr w) /\
  unclosed (log w) = length (open_handles (mgr w)).

(** What holds of the handle in every state: the field is absent or
    open; the handles on which [close()] has not been called are the
    ones the manager holds; and the handles still open at the device are
    the ones it holds and the ones whose close raised. *)
Definition handle_accounted (w : World) : Prop :=
  handle_absent_or_open (mgr w) /\
  unclosed (log w) = length (open_handles (mgr w)) /\
  open_at_device (log w) =
    (length (open_handles (mgr w)) + failed_closes (log w))%nat.

(** The names the specification gives to the errors of this module. *)
Definition CapabilityUnavailable : exn := RuntimeError "pyserial is not installed.".
Definition InvalidArgument : exn := ValueError "Port is empty.".
Definition NotConnected : exn := RuntimeError "Not connected.".

(* ------------------------------------------------------------------ *)
(** *** Concrete devices *)

(** A device on which every call succeeds; reads time out empty and one
    port is attached. *)
Definition working_device : Library :=
  {| lib_open := fun _ _ _ _ => None;
     lib_close := fun _ _ => None;
     lib_write := fun _ _ _ => None;
     lib_read := fun _ _ _ => inr [];
     lib_comports := fun _ => inr [mkListPortInfo "COM3" "USB Serial Device"] |}.

(** A device on which every call raises. *)
Definition broken_device : Library :=
  {| lib_open := fun _ _ _ _ => Some (SerialException "could not open port");
     lib_close := fun _ _ => Some (OSError "close failed");
     lib_write := fun _ _ _ => Some (SerialException "write failed");
     lib_read := fun _ _ _ => inl (SerialException "read failed");
     lib_comports := fun _ => inl (OSError "enumeration failed") |}.

(** A device that opens and then cannot be closed. *)
Definition unclosable_device : Library :=
  {| lib_open := fun _ _ _ _ => None;
     lib_close := fun _ _ => Some (OSError "close failed");
     lib_write := fun _ _ _ => None;
     lib_read := fun _ _ _ => inr [];
     lib_comports := fun _ => inr [] |}.

(** A call that moves bytes to or from the device. *)
Definition is_io_call (c : dev_call) : bool :=
  match c with
  | CallWrite _ _ => true
  | CallRead _ _ => true
  | _ => false
  end.

(* ================================================================== *)
(** ** GUI.py: the serial controls of the Setup tab *)
(* ================================================================== *)

(** [str.isspace] on one character, for the characters below 256:
    tab to carriage return, the four separators 28 to 31, the space, NEL
    and the no-break space. *)
Definition isspace (c : ascii) : bool :=
  let n := nat_of_ascii c in
  ((9 <=? n) && (n <=? 13) || (28 <=? n) && (n <=? 31) ||
   (n =? 32) || (n =? 133) || (n =? 160))%nat.

Fixpoint lstrip (s : string) : string :=
  match s with
  | EmptyString => EmptyString
  | String c s' => if isspace c then lstrip s' else s
  end.

Fixpoint rstrip (s : string) : string :=
  match s with
  | EmptyString => EmptyString
  | String c s' =>
      match rstrip s' with
      | EmptyString => if isspace c then EmptyString else String c EmptyString
      | r => String c r
      end
  end.

(** [s.strip()]: leading and trailing whitespace removed. *)
Definition strip (s : string) : string := rstrip (lstrip s).

(** [s.startswith(p)]. *)
Definition startswith (s p : string) : bool := prefix p s.

(** The line feed of the "\n" escape. *)
Definition newline : string := String (ascii_of_nat 10) EmptyString.

(** [str(e)] for an exception built from one message. *)
Definition str_exn (e : exn) : string :=
  match e with
  | RuntimeError msg => msg
  | ValueError msg => msg
  | AttributeError msg => msg
  | SerialException msg => msg
  | OSError msg => msg
  end.

(** A [messagebox] call. *)
Inductive dialog_kind : Type := ShowWarning | ShowError.

Record dialog : Type := mkDialog {
  dlg_kind : dialog_kind;
  dlg_title : string;
  dlg_message : string
}.

(** What [self.after(0, ...)] is given in this part of the window. *)
Inductive callback : Type :=
| CbRefreshComPorts
| CbSetComPorts (ports : list string).

(** The attributes of [App] that the serial handlers read or write.  A Tk
    variable is its value; a widget is the option the handlers configure
    ([values], [state], [text]).  [dialogs] are the message boxes shown,
    most recent first; [after_queue] the callbacks handed to [after] and
    not yet run, oldest first; [workers] the scan threads started and
    not yet run. *)
Record SetupTab : Type := mkSetupTab {
  scan_serial_ports : bool;
  serial_mgr : World;
  scan_var : bool;
  com_var : string;
  com_combo_values : list string;
  com_combo_state : string;
  btn_refresh_ports_state : string;
  conn_status_var : string;
  btn_connect_text : string;
  dialogs : list dialog;
  after_queue : list callback;
  workers : nat
}.

Definition with_scan_serial_ports (v : bool) (g : SetupTab) : SetupTab :=
  {| scan_serial_ports := v;
     serial_mgr := serial_mgr g;
     scan_var := scan_var g;
     com_var := com_var g;
     com_combo_values := com_combo_values g;
     com_combo_state := com_combo_state g;
     btn_refresh_ports_state := btn_refresh_ports_state g;
     conn_status_var := conn_status_var g;
     btn_connect_text := btn_connect_text g;
     dialogs := dialogs g;
     after_queue := after_queue g;
     workers := workers g |}.

Definition with_serial_mgr (v : World) (g : SetupTab) : SetupTab :=
  {| scan_serial_ports := scan_serial_ports g;
     serial_mgr := v;
     scan_var := scan_var g;
     com_var := com_var g;
     com_combo_values := com_combo_values g;
     com_combo_state := com_combo_state g;
     btn_refresh_ports_state := btn_refresh_ports_state g;
     conn_status_var := conn_status_var g;
     btn_connect_text := btn_connect_text g;
     dialogs := dialogs g;
     after_queue := after_queue g;
     workers := workers g |}.

Definition with_scan_var (v : bool) (g : SetupTab) : SetupTab :=
  {| scan_serial_ports := scan_serial_ports g;
     serial_mgr := serial_mgr g;
     scan_var := v;
     com_var := com_var g;
     com_combo_values := com_combo_values g;
     com_combo_state := com_combo_state g;
     btn_refresh_ports_state := btn_refresh_ports_state g;
     conn_status_var := conn_status_var g;
     btn_connect_text := btn_connect_text g;
     dialogs := dialogs g;
     after_queue := after_queue g;
     workers := workers g |}.

Definition with_com_var (v : string) (g : SetupTab) : SetupTab :=
  {| scan_serial_ports := scan_serial_ports g;
     serial_mgr := serial_mgr g;
     scan_var := scan_var g;
     com_var := v;
     com_combo_values := com_combo_values g;
     com_combo_state := com_combo_state g;
     btn_refresh_ports_state := btn_refresh_ports_state g;
     conn_status_var := conn_status_var g;
     btn_connect_text := btn_connect_text g;
     dialogs := dialogs g;
     after_queue := after_queue g;
     workers := workers g |}.

Definition with_com_combo_values (v : list string) (g : SetupTab) : SetupTab :=
  {| scan_serial_ports := scan_serial_ports g;
     serial_mgr := serial_mgr g;
     scan_var := scan_var g;
     com_var := com_var g;
     com_combo_values := v;
     com_combo_state := com_combo_state g;
     btn_refresh_ports_state := btn_refresh_ports_state g;
     conn_status_var := conn_status_var g;
     btn_connect_text := btn_connect_text g;
     dialogs := dialogs g;
     after_queue := after_queue g;
     workers := workers g |}.

Definition with_com_combo_state (v : string) (g : SetupTab) : SetupTab :=
  {| scan_serial_ports := scan_serial_ports g;
     serial_mgr := serial_mgr g;
     scan_var := scan_var g;
     com_var := com_var g;
     com_combo_values := com_combo_values g;
     com_combo_state := v;
     btn_refresh_ports_state := btn_refresh_ports_state g;
     conn_status_var := conn_status_var g;
     btn_connect_text := btn_connect_text g;
     dialogs := dialogs g;
     after_queue := after_queue g;
     workers := workers g |}.

Definition with_btn_refresh_ports_state (v : string) (g : SetupTab) : SetupTab :=
  {| scan_serial_ports := scan_serial_ports g;
     serial_mgr := serial_mgr g;
     scan_var := scan_var g;
     com_var := com_var g;
     com_combo_values := com_combo_values g;
     com_combo_state := com_combo_state g;
     btn_refresh_ports_state := v;
     conn_status_var := conn_status_var g;
     btn_connect_text := btn_connect_text g;
     dialogs := dialogs g;
     after_queue := after_queue g;
     workers := workers g |}.

Definition with_conn_status_var (v : string) (g : SetupTab) : SetupTab :=
  {| scan_serial_ports := scan_serial_ports g;
     serial_mgr := serial_mgr g;
     scan_var := scan_var g;
     com_var := com_var g;
     com_combo_values := com_combo_values g;
     com_combo_state := com_combo_state g;
     btn_refresh_ports_state := btn_refresh_ports_state g;
     conn_status_var := v;
     btn_connect_text := btn_connect_text g;
     dialogs := dialogs g;
     after_queue := after_queue g;
     workers := workers g |}.

Definition with_btn_connect_text (v : string) (g : SetupTab) : SetupTab :=
  {| scan_serial_ports := scan_serial_ports g;
     serial_mgr := serial_mgr g;
     scan_var := scan_var g;
     com_var := com_var g;
     com_combo_values := com_combo_values g;
     com_combo_state := com_combo_state g;
     btn_refresh_ports_state := btn_refresh_ports_state g;
     conn_status_var := conn_status_var g;
     btn_connect_text := v;
     dialogs := dialogs g;
     after_queue := after_queue g;
     workers := workers g |}.

Definition with_dialogs (v : list dialog) (g : SetupTab) : SetupTab :=
  {| scan_serial_ports := scan_serial_ports g;
     serial_mgr := serial_mgr g;
     scan_var := scan_var g;
     com_var := com_var g;
     com_combo_values := com_combo_values g;
     com_combo_state := com_combo_state g;
     btn_refresh_ports_state := btn_refresh_ports_state g;
     conn_status_var := conn_status_var g;
     btn_connect_text := btn_connect_text g;
     dialogs := v;
     after_queue := after_queue g;
     workers := workers g |}.

Definition with_after_queue (v : list callback) (g : SetupTab) : SetupTab :=
  {| scan_serial_ports := scan_serial_ports g;
     serial_mgr := serial_mgr g;
     scan_var := scan_var g;
     com_var := com_var g;
     com_combo_values := com_combo_values g;
     com_combo_state := com_combo_state g;
     btn_refresh_ports_state := btn_refresh_ports_state g;
     conn_status_var := conn_status_var g;
     btn_connect_text := btn_connect_text g;
     dialogs := dialogs g;
     after_queue := v;
     workers := workers g |}.

Definition with_workers (v : nat) (g : SetupTab) : SetupTab :=
  {| scan_serial_ports := scan_serial_ports g;
     serial_mgr := serial_mgr g;
     scan_var := scan_var g;
     com_var := com_var g;
     com_combo_values := com_combo_values g;
     com_combo_state := com_combo_state g;
     btn_refresh_ports_state := btn_refresh_ports_state g;
     conn_status_var := conn_status_var g;
     btn_connect_text := btn_connect_text g;
     dialogs := dialogs g;
     after_queue := after_queue g;
     workers := v |}.

Inductive gui_outcome (A : Type) : Type :=
| Done (a : A) (g : SetupTab)
| Failed (e : exn) (g : SetupTab)
| Hung (g : SetupTab).

Arguments Done {A} a g.
Arguments Failed {A} e g.
Arguments Hung {A} g.

Definition G (A : Type) : Type := SetupTab -> gui_outcome A.

Definition gret {A} (a : A) : G A := fun g => Done a g.

Definition gbind {A B} (m : G A) (k : A -> G B) : G B :=
  fun g =>
    match m g with
    | Done a g' => k a g'
    | Failed e g' => Failed e g'
    | Hung g' => Hung g'
    end.

(** [try: body / except Exception as e: handler]. *)
Definition gtry_except {A} (body : G A) (handler : exn -> G A) : G A :=
  fun g =>
    match body g with
    | Done a g' => Done a g'
    | Failed e g' => handler e g'
    | Hung g' => Hung g'
    end.

(** A method of [self.serial_mgr], run on the manager the window owns. *)
Definition call_mgr {A} (m : M A) : G A :=
  fun g =>
    match m (serial_mgr g) with
    | Returned a w => Done a (with_serial_mgr w g)
    | Raised e w => Failed e (with_serial_mgr w g)
    | Blocked w => Hung (with_serial_mgr w g)
    end.

Definition modify (f : SetupTab -> SetupTab) : G unit :=
  fun g => Done tt (f g).

Definition read_attr {A} (f : SetupTab -> A) : G A :=
  fun g => Done (f g) g.

Declare Scope gui_scope.
Delimit Scope gui_scope with gui.
Notation "x <- c1 ;; c2" := (gbind c1 (fun x => c2))
  (at level 100, c1 at next level, right associativity) : gui_scope.
Notation "c1 ;; c2" := (gbind c1 (fun _ => c2))
  (at level 100, right associativity) : gui_scope.

Definition showwarning (title message : string) : G unit :=
  modify (fun g => with_dialogs (mkDialog ShowWarning title message :: dialogs g) g).

Definition showerror (title message : string) : G unit :=
  modify (fun g => with_dialogs (mkDialog ShowError title message :: dialogs g) g).

(** [self.after(0, f)]. *)
Definition after_0 (f : callback) : G unit :=
  modify (fun g => with_after_queue (after_queue g ++ [f]) g).

(** [threading.Thread(target=worker, daemon=True).start()]. *)
Definition start_worker : G unit :=
  modify (fun g => with_workers (S (workers g)) g).

Section SetupTabHandlers.

Variable HAS_SERIAL : bool.
Variable pyserial : Library.

Local Open Scope gui_scope.

Definition _set_com_ports (ports : list string) : G unit :=
  modify (with_com_combo_values ports) ;;
  modify (with_com_var (match ports with p :: _ => p | [] => "" end)).

Definition _apply_scan_state (enabled : bool) : G unit :=
  hs <- call_mgr (has_serial HAS_SERIAL) ;;
  if negb hs then
    modify (with_btn_refresh_ports_state "disabled") ;;
    modify (with_com_combo_state "disabled") ;;
    _set_com_ports ["(pyserial not installed)"]
  else
    modify (with_btn_refresh_ports_state
              (if enabled then "normal" else "disabled")) ;;
    modify (with_com_combo_state
              (if enabled then "readonly" else "disabled")).

(** The body of the scan thread. *)
Definition worker : G unit :=
  ports <- call_mgr (list_ports_blocking HAS_SERIAL pyserial) ;;
  after_0 (CbSetComPorts
             (match ports with [] => ["(none)"] | _ => ports end)).

Definition refresh_com_ports : G unit :=
  scanning <- read_attr scan_serial_ports ;;
  if negb scanning then _set_com_ports ["(scan disabled)"]
  else
    hs <- call_mgr (has_serial HAS_SERIAL) ;;
    if negb hs then _set_com_ports ["(pyserial not installed)"]
    else
      _set_com_ports ["Scanning..."] ;;
      start_worker.

Definition _on_scan_toggle : G unit :=
  enabled <- read_attr scan_var ;;
  modify (with_scan_serial_ports enabled) ;;
  _apply_scan_state enabled ;;
  if enabled then refresh_com_ports
  else _set_com_ports ["(scan disabled)"].

Definition _connect : G unit :=
  hs <- call_mgr (has_serial HAS_SERIAL) ;;
  if negb hs then
    showwarning "Serial" "pyserial is not installed, cannot connect."
  else
    v <- read_attr com_var ;;
    let port := strip v in
    if (port =? "")%string || startswith port "(" then
      showwarning "Serial" "Select a valid COM port first."
    else
      gtry_except
        (call_mgr (connect HAS_SERIAL pyserial port) ;;
         modify (with_conn_status_var ("Connected: " ++ port)) ;;
         modify (with_btn_connect_text "Disconnect"))
        (fun e =>
           showerror "Serial" ("Failed to connect:" ++ newline ++ str_exn e)).

Definition _disconnect : G unit :=
  call_mgr (disconnect pyserial) ;;
  modify (with_conn_status_var "Disconnected") ;;
  modify (with_btn_connect_text "Connect").

Definition toggle_connect : G unit :=
  c <- call_mgr is_connected ;;
  if c then _disconnect else _connect.

(** The window before [_build_setup_tab] initialises the serial controls:
    the manager of [App.__init__], built with 115200 baud and 0.1 s, and
    the widgets as they are created. *)
Definition setup_tab_created (scan_serial_ports : bool) : SetupTab :=
  {| scan_serial_ports := scan_serial_ports;
     serial_mgr :=
       fresh (Some {| baudrate := 115200;
                      timeout_s := 0x1.999999999999ap-4%float |});
     scan_var := scan_serial_ports;
     com_var := "";
     com_combo_values := [];
     com_combo_state := "readonly";
     btn_refresh_ports_state := "normal";
     conn_status_var := "Disconnected";
     btn_connect_text := "Connect";
     dialogs := [];
     after_queue := [];
     workers := 0%nat |}.

(** The end of [_build_setup_tab]: "Init serial UI state". *)
Definition init_serial_ui : G unit :=
  enabled <- read_attr scan_var ;;
  _apply_scan_state enabled ;;
  enabled' <- read_attr scan_var ;;
  if enabled' then after_0 CbRefreshComPorts
  else _set_com_ports ["(scan disabled)"].

(** What the main loop delivers to this part of the window. *)
Inductive gui_event : Type :=
| ClickConnect
| ClickRefresh
| ToggleScan
| SelectPort (p : string)
| WorkerRuns
| AfterFires.

Definition run_callback (f : callback) : G unit :=
  match f with
  | CbRefreshComPorts => refresh_com_ports
  | CbSetComPorts ports => _set_com_ports ports
  end.

(** The handler an event runs.  The check button flips its variable
    before calling its command; the combobox stores the entry picked; a
    started thread runs its body; the main loop runs the oldest pending
    callback. *)
Definition handle (ev : gui_event) : G unit :=
  match ev with
  | ClickConnect => toggle_connect
  | ClickRefresh => refresh_com_ports
  | ToggleScan =>
      modify (fun g => with_scan_var (negb (scan_var g)) g) ;;
      _on_scan_toggle
  | SelectPort p => modify (with_com_var p)
  | WorkerRuns =>
      modify (fun g => with_workers (Nat.pred (workers g)) g) ;;
      worker
  | AfterFires =>
      q <- read_attr after_queue ;;
      match q with
      | [] => gret tt
      | f :: rest => modify (with_after_queue rest) ;; run_callback f
      end
  end.

End SetupTabHandlers.

(** When an event can happen: an entry is picked among the listed ones, a
    thread runs when one was started, a callback when one is pending.
    Clicks are always possible here; a disabled widget delivers none, so
    this admits more than Tk does. *)
Definition possible (ev : gui_event) (g : SetupTab) : bool :=
  match ev with
  | SelectPort p => existsb (String.eqb p) (com_combo_values g)
  | WorkerRuns => (0 <? workers g)%nat
  | AfterFires => match after_queue g with [] => false | _ => true end
  | _ => true
  end.

Definition tab_of {A} (o : gui_outcome A) : SetupTab :=
  match o with
  | Done _ g => g
  | Failed _ g => g
  | Hung g => g
  end.

(** The states of the serial controls: as the constructor leaves them,
    and after each event among the [allowed] ones whose handler came
    back, normally or with an exception that Tk reports. *)
Inductive gui_reachable (HAS_SERIAL : bool) (pyserial : Library)
  (allowed : gui_event -> bool) (scan : bool) : SetupTab -> Prop :=
| gui_started :
    gui_reachable HAS_SERIAL pyserial allowed scan
      (tab_of (init_serial_ui HAS_SERIAL (setup_tab_created scan)))
| gui_handled : forall ev g,
    gui_reachable HAS_SERIAL pyserial allowed scan g ->
    allowed ev = true ->
    possible ev g = true ->
    match handle HAS_SERIAL pyserial ev g with Hung _ => False | _ => True end ->
    gui_reachable HAS_SERIAL pyserial allowed scan
      (tab_of (handle HAS_SERIAL pyserial ev g)).

Definition any_event (ev : gui_event) : bool := true.

Definition not_toggle_scan (ev : gui_event) : bool :=
  match ev with ToggleScan => false | _ => true end.

(** The port of every open the device has been asked for satisfies [ok],
    and the open used the given baud rate and timeout. *)
Definition opens_satisfy (ok : string -> bool) (baud : Z) (timeout : float)
  (l : history) : Prop :=
  forall port b t r,
    In {| ev_call := CallOpen port b t; ev_ok := r |} l ->
    ok port = true /\ b = baud /\ t = timeout.

(** A port the Connect button lets through. *)
Definition selectable_port (port : string) : bool :=
  negb (port =? "")%string && negb (startswith port "(").

(** The status line and the button say what the manager holds. *)
Definition status_matches (g : SetupTab) : Prop :=
  match _ser (mgr (serial_mgr g)) with
  | Some h =>
      is_open h = true /\
      conn_status_var g = "Connected: " ++ ser_port h /\
      btn_connect_text g = "Disconnect"
  | None =>
      conn_status_var g = "Disconnected" /\
      btn_connect_text g = "Connect"
  end.

(** The combobox shows one of its entries, or nothing while it has
    none. *)
Definition selection_listed (g : SetupTab) : Prop :=
  match com_combo_values g with
  | [] => com_var g = ""
  | _ => In (com_var g) (com_combo_values g)
  end.

(** The configuration [App.__init__] gives its manager. *)
Definition gui_cfg : SerialConfig :=
  {| baudrate := 115200; timeout_s := 0x1.999999999999ap-4%float |}.

(** What holds of the serial controls between two events. *)
Definition gui_inv (g : SetupTab) : Prop :=
  consistent (serial_mgr g) /\
  cfg (mgr (serial_mgr g)) = gui_cfg /\
  status_matches g /\
  selection_listed g /\
  (forall ports, In (CbSetComPorts ports) (after_queue g) -> ports <> []) /\
  opens_satisfy selectable_port (baudrate gui_cfg) (timeout_s gui_cfg)
    (log (serial_mgr g)).

(* ================================================================== *)
(** ** GUI.py: the tick and the live plot *)
(* ================================================================== *)

(** [float(n)] for an integer that a binary64 holds exactly; the two
    integers converted here lie in [0, 100). *)
Definition float_of_int (n : Z) : float :=
  PrimFloat.of_uint63 (Uint63.of_Z n).

(** [str(n)], the decimal numeral of an integer. *)
Definition str_int (n : Z) : string :=
  DecimalString.NilZero.string_of_int (Z.to_int n).

(** [App._fake_measurement], in binary64 arithmetic; [0.2] is the double
    0x1.999999999999ap-3. *)
Definition _fake_measurement (sample_index : Z) : float :=
  let a := (float_of_int (sample_index mod 50) / 50)%float in
  let b := (float_of_int ((sample_index * 7) mod 100) / 100)%float in
  (a + 0x1.999999999999ap-3 * b)%float.

(** [l[-n:]]: the last [n] elements, all of [l] when it is shorter. *)
Definition last_n {A} (n : nat) (l : list A) : list A :=
  skipn (length l - n) l.

(** The calls [_update_plot] makes on the line, the axes and the canvas. *)
Inductive plot_call : Type :=
| SetData (xs : list Z) (ys : list float)
| SetXlim (lo hi : Z)
| Relim
| AutoscaleView (scalex scaley : bool)
| DrawIdle.

(** The attributes of [App] that [on_tick] reads or writes.
    [display_vars] are the values of the eight Tk variables;
    [plot_calls] the matplotlib calls made, most recent first; [timers]
    the delays of the [after(ms, on_tick)] calls not yet fired. *)
Record LivePlot : Type := mkLivePlot {
  TICK_MS : Z;
  display_vars : list string;
  live_x : list Z;
  live_y : list float;
  sample_index : Z;
  plot_calls : list plot_call;
  timers : list Z
}.

(** [App._update_plot] on the data of the window. *)
Definition _update_plot (xs : list Z) (ys : list float)
  (calls : list plot_call) : list plot_call :=
  let calls := SetData xs ys :: calls in
  let calls :=
    match xs with
    | [] => calls
    | x0 :: _ => SetXlim x0 (last xs x0) :: calls
    end in
  DrawIdle :: AutoscaleView false true :: Relim :: calls.

(** [App.on_tick].  [None] is the [IndexError] of [display_vars[0]] on an
    empty list, raised before anything is changed. *)
Definition on_tick (s : LivePlot) : option LivePlot :=
  match display_vars s with
  | [] => None
  | _ :: others =>
      let shown := ("Tick: " ++ str_int (sample_index s)) :: others in
      let y := _fake_measurement (sample_index s) in
      let xs := (live_x s ++ [sample_index s])%list in
      let ys := (live_y s ++ [y])%list in
      let N := 200%nat in
      let over := (N <? length xs)%nat in
      let xs' := if over then last_n N xs else xs in
      let ys' := if over then last_n N ys else ys in
      Some {| TICK_MS := TICK_MS s;
              display_vars := shown;
              live_x := xs';
              live_y := ys';
              sample_index := sample_index s + 1;
              plot_calls := _update_plot xs' ys' (plot_calls s);
              timers := (timers s ++ [TICK_MS s])%list |}
  end.

(** The tick attributes as [App.__init__] leaves them: eight displays,
    no data, one timer armed. *)
Definition live_plot_created (tick_ms : Z) : LivePlot :=
  {| TICK_MS := tick_ms;
     display_vars :=
       map (fun i => "Display " ++ str_int (Z.of_nat i + 1)) (seq 0 8);
     live_x := [];
     live_y := [];
     sample_index := 0;
     plot_calls := [];
     timers := [tick_ms] |}.

(** The main loop fires the oldest timer: it is removed and [on_tick]
    runs. *)
Definition fire_timer (s : LivePlot) : option LivePlot :=
  match timers s with
  | [] => None
  | _ :: rest =>
      on_tick {| TICK_MS := TICK_MS s;
                 display_vars := display_vars s;
                 live_x := live_x s;
                 live_y := live_y s;
                 sample_index := sample_index s;
                 plot_calls := plot_calls s;
                 timers := rest |}
  end.

Fixpoint fire_timers (n : nat) (s : LivePlot) : option LivePlot :=
  match n with
  | O => Some s
  | S n' =>
      match fire_timers n' s with
      | Some s' => fire_timer s'
      | None => None
      end
  end.

(** The integers [lo, lo + 1, ..., lo + n - 1]. *)
Definition int_range (lo : nat) (n : nat) : list Z :=
  map Z.of_nat (seq lo n).

(* ================================================================== *)
(** ** GUI.py: the text-file controls of the Setup tab *)
(* ================================================================== *)

(** [sorted(l)] on strings.  The order on [str] is total and
    antisymmetric, so the sorted list is the same whatever the sorting
    algorithm; it is built here by insertion. *)
Fixpoint insert_sorted (x : string) (l : list string) : list string :=
  match l with
  | [] => [x]
  | y :: l' =>
      if (x <=? y)%string then x :: l else y :: insert_sorted x l'
  end.

Fixpoint sorted (l : list string) : list string :=
  match l with
  | [] => []
  | x :: l' => insert_sorted x (sorted l')
  end.

(** The file system as the handlers see it: the matches of
    [glob.glob(os.path.join(d, "*.txt"))] and the outcome of opening and
    reading a file as text. *)
Record FileSystem : Type := mkFileSystem {
  glob_txt : string -> list string;
  read_text : string -> exn + string
}.

(** The attributes of [App] that the text-file handlers read or write:
    the Tk variable, the entries of the combobox and the contents of
    the text widget. *)
Record TxtTab : Type := mkTxtTab {
  txt_var : string;
  txt_combo_values : list string;
  txt_view : string
}.

Section TxtHandlers.

Variable fs : FileSystem.

Definition load_txt_file (path : string) (t : TxtTab) : TxtTab :=
  let cleared :=
    {| txt_var := txt_var t;
       txt_combo_values := txt_combo_values t;
       txt_view := "" |} in
  if (path =? "")%string then cleared
  else
    {| txt_var := txt_var t;
       txt_combo_values := txt_combo_values t;
       txt_view :=
         match read_text fs path with
         | inr contents => contents
         | inl e => "Failed to load file:" ++ newline ++ str_exn e
         end |}.

Definition refresh_txt_dropdown (default_dir : string) (t : TxtTab)
  : TxtTab :=
  let txts := sorted (glob_txt fs default_dir) in
  let t1 := {| txt_var := txt_var t;
               txt_combo_values := txts;
               txt_view := txt_view t |} in
  match txts with
  | [] => t1
  | first :: _ =>
      load_txt_file first
        {| txt_var := first;
           txt_combo_values := txts;
           txt_view := txt_view t |}
  end.

(** [browse_txt], given what the file dialog returned: the empty string
    when it was cancelled. *)
Definition browse_txt (path : string) (t : TxtTab) : TxtTab :=
  if (path =? "")%string then t
  else
    let current := txt_combo_values t in
    let values :=
      if negb (existsb (String.eqb path) current)
      then sorted (current ++ [path])%list
      else current in
    load_txt_file path
      {| txt_var := path;
         txt_combo_values := values;
         txt_view := txt_view t |}.

(** Picking an entry of the combobox sets the variable and runs the
    bound [load_txt_file(self.txt_var.get())]. *)
Definition select_txt (path : string) (t : TxtTab) : TxtTab :=
  load_txt_file path
    {| txt_var := path;
       txt_combo_values := txt_combo_values t;
       txt_view := txt_view t |}.

(** The text-file controls as [_build_setup_tab] creates them. *)
Definition txt_tab_created : TxtTab :=
  {| txt_var := ""; txt_combo_values := []; txt_view := "" |}.

Inductive txt_event : Type :=
| Browse (path : string)
| SelectTxt (path : string).

Definition handle_txt (ev : txt_event) (t : TxtTab) : TxtTab :=
  match ev with
  | Browse path => browse_txt path t
  | SelectTxt path => select_txt path t
  end.

End TxtHandlers.

(** The states of the text-file controls: after the first
    [refresh_txt_dropdown], then after each dialog and each pick of a
    listed entry. *)
Inductive txt_reachable (fs : FileSystem) (cwd : string) : TxtTab -> Prop :=
| txt_started :
    txt_reachable fs cwd (refresh_txt_dropdown fs cwd txt_tab_created)
| txt_browsed : forall path t,
    txt_reachable fs cwd t ->
    txt_reachable fs cwd (browse_txt fs path t)
| txt_selected : forall path t,
    txt_reachable fs cwd t ->
    In path (txt_combo_values t) ->
    txt_reachable fs cwd (select_txt fs path t).

(** Adjacent entries are in order. *)
Definition string_sorted (l : list string) : Prop :=
  Sorted (fun x y => (x <=? y)%string = true) l.

(** A directory with two text files, one of them unreadable. *)
Definition two_files : FileSystem :=
  {| glob_txt := fun _ => ["notes.txt"; "data.txt"];
     read_text := fun path =>
       if (path =? "data.txt")%string then inr "1 2 3"
       else inl (OSError "Permission denied") |}.

(** What [n] ticks leave behind, wherever the displays started. *)
Definition ticked (tick_ms : Z) (n : nat) (s : LivePlot) : Prop :=
  TICK_MS s = tick_ms /\
  timers s = [tick_ms] /\
  length (display_vars s) = 8%nat /\
  sample_index s = Z.of_nat n /\
  live_x s = int_range (n - 200) (Nat.min n 200) /\
  live_y s = map _fake_measurement (live_x s).

(** What the text widget shows for the file at [path]. *)
Definition shown_text (fs : FileSystem) (path : string) : string :=
  match read_text fs path with
  | inr contents => contents
  | inl e => "Failed to load file:" ++ newline ++ str_exn e
  end.

(** A session on a working device, started with the scan enabled: the
    scheduled refresh runs, the scan thread runs, its result is shown,
    and Connect is clicked on the port found. *)
Definition scanned_window : SetupTab :=
  tab_of (handle true working_device AfterFires
    (tab_of (handle true working_device WorkerRuns
      (tab_of (handle true working_device AfterFires
        (tab_of (init_serial_ui true (setup_tab_created true)))))))).

Definition connected_window : SetupTab :=
  tab_of (handle true working_device ClickConnect scanned_window).

(* ================================================================== *)
(** ** Properties *)
(* ================================================================== *)

Section Properties.

Variable HAS_SERIAL : bool.
Variable pyserial : Library.

(* ------------------------------------------------------------------ *)
(** *** The lock *)

Lemma set_lock_same : forall w b, _lock (mgr w) = b -> set_lock b w = w.
Proof.
  intros [[c s l] lg] b H. simpl in H. subst. reflexivity.
Qed.

Lemma set_lock_twice : forall w b b', set_lock b (set_lock b' w) = set_lock b w.
Proof. reflexivity. Qed.

Lemma with_lock_held : forall A (body : M A) w,
  _lock (mgr w) = true -> with_lock body w = Blocked w.
Proof.
  intros A body w H. unfold with_lock. rewrite H. reflexivity.
Qed.

Lemma with_lock_free : forall A (body : M A) w,
  _lock (mgr w) = false ->
  with_lock body w =
    match body (set_lock true w) with
    | Returned a w' => Returned a (set_lock false w')
    | Raised e w' => Raised e (set_lock false w')
    | Blocked w' => Blocked w'
    end.
Proof.
  intros A body w H. unfold with_lock. rewrite H. reflexivity.
Qed.

(** Where [is_connected] is evaluated with the lock held it blocks. *)
Lemma is_connected_under_lock : forall w,
  is_connected (set_lock true w) = Blocked (set_lock true w).
Proof. intros w. apply with_lock_held. reflexivity. Qed.

(** With the lock free [is_connected] answers from the handle field and
    changes nothing. *)
Lemma is_connected_free : forall w,
  _lock (mgr w) = false ->
  is_connected w = Returned (ser_is_open (_ser (mgr w))) w.
Proof.
  intros w H. unfold is_connected. rewrite with_lock_free by exact H.
  destruct w as [[c s l] lg]. simpl in H. subst l. reflexivity.
Qed.

(** [write] takes the lock, or finds it taken, and goes no further. *)
Lemma write_blocks : forall w data,
  write pyserial data w = Blocked (set_lock true w).
Proof.
  intros w data. unfold write. destruct (_lock (mgr w)) eqn:L.
  - rewrite with_lock_held by exact L. now rewrite set_lock_same.
  - rewrite with_lock_free by exact L. unfold bind.
    now rewrite is_connected_under_lock.
Qed.

Lemma read_blocks : forall w n,
  read pyserial n w = Blocked (set_lock true w).
Proof.
  intros w n. unfold read. destruct (_lock (mgr w)) eqn:L.
  - rewrite with_lock_held by exact L. now rewrite set_lock_same.
  - rewrite with_lock_free by exact L. unfold bind.
    now rewrite is_connected_under_lock.
Qed.

(* ------------------------------------------------------------------ *)
(** *** The methods, call by call *)

Ltac run_methods :=
  unfold exec, connect, disconnect, list_ports_blocking, write, read,
    is_connected, has_serial, with_lock, bind, ret, raise, try_except,
    get_ser, get_cfg, set_ser, serial_Serial, list_ports_comports,
    Serial_close, Serial_write, Serial_read, set_lock, record in *;
  cbn in *.

(** Case analysis on the innermost condition the goal still branches on. *)
Ltac split_cases :=
  repeat match goal with
         | |- context [match ?x with _ => _ end] =>
             lazymatch x with
             | context [match _ with _ => _ end] => fail
             | true => fail
             | false => fail
             | _ =>
                 first [ match goal with H : x = _ |- _ => rewrite H end
                       | destruct x eqn:? ];
                 cbn in *
             end
         end.

(** [disconnect] with the lock free: the close is recorded, whatever it
    answered, and the handle field is cleared. *)
Lemma disconnect_free : forall w,
  _lock (mgr w) = false ->
  disconnect pyserial w =
    Returned tt
      {| mgr := {| cfg := cfg (mgr w); _ser := None; _lock := false |};
         log := match _ser (mgr w) with
                | None => log w
                | Some h =>
                    {| ev_call := CallClose h;
                       ev_ok := match lib_close pyserial (log w) h with
                                | None => true
                                | Some _ => false
                                end |} :: log w
                end |}.
Proof.
  intros [[c s l] lg] H. simpl in H. subst l.
  run_methods. destruct s as [h|]; simpl; [|reflexivity].
  destruct (lib_close pyserial lg h); reflexivity.
Qed.

(** After a [disconnect] that came back, [is_connected] answers false. *)
Lemma is_connected_after_disconnect : forall w,
  _lock (mgr w) = false ->
  is_connected (world_of (disconnect pyserial w)) =
    Returned false (world_of (disconnect pyserial w)).
Proof.
  intros w H. rewrite disconnect_free by exact H. reflexivity.
Qed.

(** [connect] on a manager that holds an open handle: nothing happens. *)
Lemma connect_already_open : forall w port,
  HAS_SERIAL = true -> port <> "" ->
  _lock (mgr w) = false ->
  ser_is_open (_ser (mgr w)) = true ->
  connect HAS_SERIAL pyserial port w = Returned tt w.
Proof.
  intros [[c s l] lg] port HS Hp H Ho. simpl in *. subst l.
  apply String.eqb_neq in Hp. run_methods. rewrite HS, Hp. simpl.
  destruct s as [h|]; simpl in *; [|discriminate].
  rewrite Ho. reflexivity.
Qed.

(** [connect] on a manager without an open handle, the device accepting
    the open: the new handle is stored. *)
Lemma connect_opens : forall w port,
  HAS_SERIAL = true -> port <> "" ->
  _lock (mgr w) = false ->
  ser_is_open (_ser (mgr w)) = false ->
  lib_open pyserial (log w) port
    (baudrate (cfg (mgr w))) (timeout_s (cfg (mgr w))) = None ->
  connect HAS_SERIAL pyserial port w =
    Returned tt
      {| mgr := {| cfg := cfg (mgr w);
                   _ser := Some (mkSerial port (baudrate (cfg (mgr w)))
                                          (timeout_s (cfg (mgr w))) true);
                   _lock := false |};
         log := {| ev_call := CallOpen port (baudrate (cfg (mgr w)))
                                       (timeout_s (cfg (mgr w)));
                   ev_ok := true |} :: log w |}.
Proof.
  intros [[c s l] lg] port HS Hp H Ho Hl. simpl in *. subst l.
  apply String.eqb_neq in Hp. run_methods. rewrite HS, Hp. simpl.
  destruct s as [h|]; simpl in *; [rewrite Ho; simpl|];
    rewrite Hl; reflexivity.
Qed.

(** [connect] on a manager without an open handle, the device refusing the
    open: the exception of the device comes out and the manager is as it
    was. *)
Lemma connect_refused : forall w port e,
  HAS_SERIAL = true -> port <> "" ->
  _lock (mgr w) = false ->
  ser_is_open (_ser (mgr w)) = false ->
  lib_open pyserial (log w) port
    (baudrate (cfg (mgr w))) (timeout_s (cfg (mgr w))) = Some e ->
  connect HAS_SERIAL pyserial port w =
    Raised e
      (record (CallOpen port (baudrate (cfg (mgr w)))
                 (timeout_s (cfg (mgr w)))) false w).
Proof.
  intros [[c s l] lg] port e HS Hp H Ho Hl. simpl in *. subst l.
  apply String.eqb_neq in Hp. run_methods. rewrite HS, Hp. simpl.
  destruct s as [h|]; simpl in *; [rewrite Ho; simpl|];
    rewrite Hl; reflexivity.
Qed.

(* ------------------------------------------------------------------ *)
(** *** What every sequence of calls preserves *)

Lemma fresh_consistent : forall c, consistent (fresh c).
Proof.
  intros c. unfold consistent, handle_absent_or_open. simpl. auto.
Qed.

Lemma consistent_cases : forall w,
  consistent w ->
  _lock (mgr w) = false /\
  ((_ser (mgr w) = None /\ unclosed (log w) = 0%nat) \/
   (exists h, _ser (mgr w) = Some h /\ is_open h = true /\
              unclosed (log w) = 1%nat)).
Proof.
  intros [[c s l] lg] (Hl & Hh & Hu).
  unfold handle_absent_or_open, open_handles in *. simpl in *.
  split; [exact Hl|].
  destruct Hh as [Hn | (h & Hs & Ho)]; subst s; simpl in *.
  - left. auto.
  - right. exists h. rewrite Ho in Hu. auto.
Qed.

Lemma exec_consistent : forall o w,
  consistent w ->
  completed (exec HAS_SERIAL pyserial o w) = true ->
  consistent (world_of (exec HAS_SERIAL pyserial o w)).
Proof.
  intros o w Hc Hdone.
  destruct (consistent_cases w Hc) as (Hl & Hcases).
  destruct o.
  - (* has_serial *) exact Hc.
  - (* is_connected *)
    unfold exec, bind. rewrite is_connected_free by exact Hl. exact Hc.
  - (* connect *)
    clear Hdone. destruct w as [[c s l] lg]. simpl in *. subst l.
    unfold consistent, handle_absent_or_open, open_handles.
    destruct Hcases as [(Hs & Hu) | (h & Hs & Ho & Hu)]; subst s;
      run_methods; split_cases; simpl;
      rewrite ?Hu; eauto 7.
  - (* disconnect *)
    unfold exec, bind. rewrite disconnect_free by exact Hl.
    unfold consistent, handle_absent_or_open, open_handles. simpl.
    destruct Hcases as [(Hs & Hu) | (h & Hs & Ho & Hu)]; rewrite Hs; simpl;
      rewrite Hu; auto.
  - (* list_ports_blocking *)
    clear Hdone. destruct w as [[c s l] lg]. simpl in *. subst l.
    destruct Hc as (_ & Hh & Hu).
    unfold consistent, handle_absent_or_open, open_handles in *.
    run_methods; split_cases; simpl; auto.
  - (* write *)
    unfold exec, bind in Hdone.
    rewrite write_blocks in Hdone. discriminate.
  - (* read *)
    unfold exec, bind in Hdone.
    rewrite read_blocks in Hdone. discriminate.
Qed.

Lemma reachable_consistent : forall w,
  reachable HAS_SERIAL pyserial w -> consistent w.
Proof.
  induction 1 as [c | o w Hr IH Hdone].
  - apply fresh_consistent.
  - apply exec_consistent; assumption.
Qed.

(** A call that blocks leaves the handle field and the device alone. *)
Lemma exec_blocked_frame : forall o w,
  completed (exec HAS_SERIAL pyserial o w) = false ->
  _ser (mgr (world_of (exec HAS_SERIAL pyserial o w))) = _ser (mgr w) /\
  log (world_of (exec HAS_SERIAL pyserial o w)) = log w.
Proof.
  intros o [[c s l] lg] Hb. destruct o; revert Hb;
    run_methods; split_cases; simpl; intros; try discriminate; auto.
Qed.

(** No call releases a lock it did not take: from a state with the lock
    held, every call leaves it held. *)
Lemma exec_lock_held : forall o w,
  _lock (mgr w) = true ->
  _lock (mgr (world_of (exec HAS_SERIAL pyserial o w))) = true.
Proof.
  intros o [[c s l] lg] Hl. simpl in Hl. subst l.
  destruct o; run_methods; split_cases; reflexivity.
Qed.

Lemma run_calls_lock_held : forall os w,
  _lock (mgr w) = true ->
  _lock (mgr (run_calls HAS_SERIAL pyserial os w)) = true.
Proof.
  induction os as [|o os IH]; intros w Hl; simpl.
  - exact Hl.
  - apply IH. apply exec_lock_held. exact Hl.
Qed.

(* ------------------------------------------------------------------ *)
(** *** The contract *)

(** C2: from every state, connected or not, [write] and [read] neither
    return nor raise.  They stop at the lock: with the lock free they take
    it and then block in [is_connected], which asks for the lock its caller
    holds; the handle, the configuration and the device are left
    untouched.  Whatever calls are made afterwards, the lock stays held,
    so the blocked call is never woken. *)
Theorem write_read_block :
  forall w data n,
    write pyserial data w = Blocked (set_lock true w) /\
    read pyserial n w = Blocked (set_lock true w) /\
    completed (write pyserial data w) = false /\
    completed (read pyserial n w) = false /\
    (forall os,
       _lock (mgr (run_calls HAS_SERIAL pyserial os (set_lock true w))) = true).
Proof.
  intros w data n.
  rewrite write_blocks, read_blocks.
  repeat split.
  intros os. apply run_calls_lock_held. reflexivity.
Qed.

(** C1 (the code against the claim): on a new manager [disconnect] comes
    back and [is_connected] then answers false, but the [write] and the
    [read] that follow do not fail with [NotConnected]: they block on the
    lock they hold, and nothing is raised. *)
Theorem write_after_disconnect_blocks :
  forall c data n,
    let w := fresh c in
    disconnect pyserial w = Returned tt w /\
    is_connected w = Returned false w /\
    write pyserial data w = Blocked (set_lock true w) /\
    read pyserial n w = Blocked (set_lock true w).
Proof.
  intros c data n w.
  split; [reflexivity|]. split; [reflexivity|].
  split; [apply write_blocks | apply read_blocks].
Qed.

(** C3 (as amended): [connect] with the empty port fails with
    [InvalidArgument] when pyserial is available and with
    [CapabilityUnavailable] when it is not; the availability check comes
    first, and in both cases the manager and the device are untouched. *)
Theorem connect_empty_port :
  forall w,
    connect HAS_SERIAL pyserial "" w =
      Raised (if HAS_SERIAL then InvalidArgument else CapabilityUnavailable) w.
Proof.
  intros w. unfold connect. destruct HAS_SERIAL; reflexivity.
Qed.

Lemma fresh_accounted : forall c, handle_accounted (fresh c).
Proof.
  intros c. unfold handle_accounted, handle_absent_or_open. simpl. auto.
Qed.

(** Every call, from any state and whether it comes back or blocks,
    keeps the handle accounted for. *)
Lemma exec_accounted : forall o w,
  handle_accounted w ->
  handle_accounted (world_of (exec HAS_SERIAL pyserial o w)).
Proof.
  intros o [[c s l] lg] (Hh & Hu & Hd).
  unfold handle_accounted, handle_absent_or_open, open_handles in *.
  simpl in *.
  destruct Hh as [Hs | (h & Hs & Ho)]; subst s; simpl in *;
    try rewrite Ho in *; simpl in *;
    destruct o; run_methods; split_cases; simpl;
    rewrite ?Hu, ?Hd; simpl; eauto 7.
Qed.

Lemma visited_accounted : forall w,
  visited HAS_SERIAL pyserial w -> handle_accounted w.
Proof.
  induction 1 as [c | o w Hv IH].
  - apply fresh_accounted.
  - apply exec_accounted. exact IH.
Qed.

(** Between the [close()] and the clearing of the field, [disconnect]
    does hold a closed handle: it is the assignment of [None] that
    restores the invariant. *)
Lemma closed_handle_is_retained_until_cleared : forall h w,
  lib_close pyserial (log w) h = None ->
  ~ handle_absent_or_open (mgr (world_of (Serial_close pyserial h w))).
Proof.
  intros h w Hc. unfold Serial_close. rewrite Hc. simpl.
  intros [Hn | (h' & Hs & Ho)]; [discriminate|].
  inversion Hs. subst h'. discriminate.
Qed.

(** C4 (as amended): in every state the manager can be seen in, after
    any sequence of calls that came back or blocked, the handle field is
    absent or holds an open handle, never a closed one, and so the
    manager holds at most one open handle.  Every handle it opened and
    no longer holds has had [close()] called on it; the handles still
    open at the device are the one it holds and those whose close
    raised, so that at most one is open as long as no close has
    failed. *)
Theorem visited_handle_absent_or_open :
  forall w,
    visited HAS_SERIAL pyserial w ->
    handle_absent_or_open (mgr w) /\
    (length (open_handles (mgr w)) <= 1)%nat /\
    unclosed (log w) = length (open_handles (mgr w)) /\
    open_at_device (log w) =
      (length (open_handles (mgr w)) + failed_closes (log w))%nat /\
    (failed_closes (log w) = 0%nat -> (open_at_device (log w) <= 1)%nat).
Proof.
  intros w Hv. apply visited_accounted in Hv.
  destruct Hv as (Hh & Hu & Hd).
  assert (Hone : (length (open_handles (mgr w)) <= 1)%nat).
  { destruct w as [[c [h|] l] lg]; unfold open_handles; simpl;
      [destruct (is_open h)|]; simpl; lia. }
  repeat split; try assumption.
  intros Hf. rewrite Hd, Hf. lia.
Qed.

(** C5: on a port the device accepts, two [connect] calls in a row both
    succeed; after the first the manager holds exactly one open handle,
    the only one not closed, and the second call changes nothing: no
    call into pyserial is made and the handle is the same. *)
Theorem connect_twice :
  forall w port,
    HAS_SERIAL = true ->
    reachable HAS_SERIAL pyserial w ->
    port <> "" ->
    lib_open pyserial (log w) port
      (baudrate (cfg (mgr w))) (timeout_s (cfg (mgr w))) = None ->
    exists w1 h,
      connect HAS_SERIAL pyserial port w = Returned tt w1 /\
      connect HAS_SERIAL pyserial port w1 = Returned tt w1 /\
      _ser (mgr w1) = Some h /\
      is_open h = true /\
      open_handles (mgr w1) = [h] /\
      unclosed (log w1) = 1%nat.
Proof.
  intros w port HS Hr Hp Hopen.
  apply reachable_consistent in Hr.
  destruct (consistent_cases w Hr) as (Hl & [(Hs & Hu) | (h & Hs & Ho & Hu)]).
  - (* no handle yet: the first call opens, the second finds it open *)
    assert (Hclosed : ser_is_open (_ser (mgr w)) = false)
      by (rewrite Hs; reflexivity).
    pose proof (connect_opens w port HS Hp Hl Hclosed Hopen) as H1.
    eexists. eexists. split; [exact H1|].
    split; [apply connect_already_open; auto|].
    simpl. rewrite Hu. unfold open_handles. simpl. auto.
  - (* already connected: both calls return at once *)
    assert (Hisopen : ser_is_open (_ser (mgr w)) = true)
      by (rewrite Hs; exact Ho).
    pose proof (connect_already_open w port HS Hp Hl Hisopen) as H1.
    exists w, h. unfold open_handles. rewrite Hs, Ho. auto 7.
Qed.

(** C6: when the open of the device fails during [connect], the exception
    of the device comes out of [connect] as it was raised, the manager is
    unchanged and its handle field, absent before, is absent after. *)
Theorem connect_open_failure :
  forall w port e,
    HAS_SERIAL = true ->
    reachable HAS_SERIAL pyserial w ->
    port <> "" ->
    ser_is_open (_ser (mgr w)) = false ->
    lib_open pyserial (log w) port
      (baudrate (cfg (mgr w))) (timeout_s (cfg (mgr w))) = Some e ->
    exists w',
      connect HAS_SERIAL pyserial port w = Raised e w' /\
      mgr w' = mgr w /\
      _ser (mgr w) = None /\
      _ser (mgr w') = None /\
      log w' = {| ev_call := CallOpen port (baudrate (cfg (mgr w)))
                                      (timeout_s (cfg (mgr w)));
                  ev_ok := false |} :: log w.
Proof.
  intros w port e HS Hr Hp Hclosed Hfail.
  apply reachable_consistent in Hr.
  destruct (consistent_cases w Hr) as (Hl & Hcases).
  assert (Hs : _ser (mgr w) = None).
  { destruct Hcases as [(Hs & _) | (h & Hs & Ho & _)]; [exact Hs|].
    rewrite Hs in Hclosed. simpl in Hclosed. congruence. }
  eexists. split; [apply connect_refused; assumption|].
  simpl. auto.
Qed.

(** What [disconnect] does guarantee.  It never raises, in any state.
    With the lock free it returns; the handle field is then absent and
    the configuration is as before.  If a handle was present its [close] was called once, and
    whether that raised or not made no difference to the outcome; if no
    handle was present nothing changed at all. *)
Theorem disconnect_never_fails :
  forall w,
    (forall e w', disconnect pyserial w <> Raised e w') /\
    (_lock (mgr w) = false ->
     exists w',
       disconnect pyserial w = Returned tt w' /\
       _ser (mgr w') = None /\
       _lock (mgr w') = false /\
       cfg (mgr w') = cfg (mgr w) /\
       match _ser (mgr w) with
       | Some h => exists ok, log w' = {| ev_call := CallClose h; ev_ok := ok |} :: log w
       | None => w' = w
       end).
Proof.
  intros w. split.
  - intros e w'. destruct (_lock (mgr w)) eqn:Hl.
    + unfold disconnect. rewrite with_lock_held by exact Hl. discriminate.
    + rewrite disconnect_free by exact Hl. discriminate.
  - intros Hl. eexists. split; [apply disconnect_free; exact Hl|].
    simpl. repeat split.
    destruct w as [[c s l] lg]. simpl in *. subst l.
    destruct s as [h|]; [eexists|]; reflexivity.
Qed.

(** What holds without pyserial.  [connect] fails with
    [CapabilityUnavailable] for every port and from every state, leaving
    the manager and the device history as they were; and in every state
    reached by calls that came back no call into pyserial has been made, the handle field is absent and
    [is_connected] answers false. *)
Theorem connect_without_pyserial :
  forall port w,
    HAS_SERIAL = false ->
    connect HAS_SERIAL pyserial port w = Raised CapabilityUnavailable w /\
    (reachable HAS_SERIAL pyserial w ->
     log w = [] /\
     _ser (mgr w) = None /\
     is_connected w = Returned false w).
Proof.
  intros port w HS. split.
  - unfold connect. rewrite HS. reflexivity.
  - intros Hr.
    assert (Hinv : log w = [] /\ _ser (mgr w) = None /\ _lock (mgr w) = false).
    { induction Hr as [c | o w Hr IH Hdone]; [simpl; auto|].
      destruct IH as (Hlog & Hs & Hl).
      destruct w as [[c s l] lg]. simpl in *. subst lg s l.
      clear Hr. destruct o; revert Hdone; run_methods; rewrite ?HS; cbn;
        intros; try discriminate; auto. }
    destruct Hinv as (Hlog & Hs & Hl).
    rewrite is_connected_free by exact Hl. rewrite Hs. auto.
Qed.

(** C9: [list_ports_blocking] always returns and never raises.  Without
    pyserial it returns the empty list and makes no call; when the
    enumeration raises it returns the empty list; otherwise it returns the
    device names in the order of the enumeration.  The manager is never
    touched. *)
Theorem list_ports_blocking_never_raises :
  forall w,
    (exists ports w',
       list_ports_blocking HAS_SERIAL pyserial w = Returned ports w' /\
       mgr w' = mgr w) /\
    (HAS_SERIAL = false ->
     list_ports_blocking HAS_SERIAL pyserial w = Returned [] w) /\
    (forall e,
       HAS_SERIAL = true ->
       lib_comports pyserial (log w) = inl e ->
       list_ports_blocking HAS_SERIAL pyserial w =
         Returned [] (record CallComports false w)) /\
    (forall ps,
       HAS_SERIAL = true ->
       lib_comports pyserial (log w) = inr ps ->
       list_ports_blocking HAS_SERIAL pyserial w =
         Returned (map device ps) (record CallComports true w)).
Proof.
  intros w. repeat split.
  - unfold list_ports_blocking, try_except, bind, list_ports_comports.
    destruct HAS_SERIAL; simpl; [|eauto].
    destruct (lib_comports pyserial (log w)); simpl; eauto.
  - intros HS. unfold list_ports_blocking. rewrite HS. reflexivity.
  - intros e HS He.
    unfold list_ports_blocking, try_except, bind, list_ports_comports.
    rewrite HS. simpl. rewrite He. reflexivity.
  - intros ps HS Hps.
    unfold list_ports_blocking, try_except, bind, list_ports_comports.
    rewrite HS. simpl. rewrite Hps. reflexivity.
Qed.

(** C10: the configuration is the one given to the constructor, or the
    default of baud rate 115200 and timeout 0.1 s when none is given, and no
    operation changes it, whether it returns, raises or blocks. *)
Theorem cfg_immutable :
  (forall c, cfg (mgr (fresh (Some c))) = c) /\
  cfg (mgr (fresh None)) = SerialConfig_default /\
  baudrate SerialConfig_default = 115200 /\
  timeout_s SerialConfig_default = 0x1.999999999999ap-4%float /\
  (forall o w,
     cfg (mgr (world_of (exec HAS_SERIAL pyserial o w))) = cfg (mgr w)).
Proof.
  repeat split.
  intros o [[c s l] lg].
  destruct o; run_methods; split_cases; reflexivity.
Qed.

End Properties.

(* ================================================================== *)
(** ** The contract on concrete devices *)
(* ================================================================== *)

(** C3, against the claim as written: without pyserial, [connect] with
    the empty port fails with [CapabilityUnavailable], which is not
    [InvalidArgument]. *)
Lemma connect_empty_port_without_pyserial :
  connect false working_device "" (fresh None) =
    Raised CapabilityUnavailable (fresh None) /\
  CapabilityUnavailable <> InvalidArgument.
Proof.
  split; [reflexivity | discriminate].
Qed.

(** C7 (the code against the claim): once a [write] is blocked, the
    lock it holds is never released, and [disconnect] blocks on it: it
    does not return, no [close()] is attempted and the handle stays in
    the field.  This holds from every state; on a working device, after
    [connect "COM3"] and a [write], the open handle on COM3 is still
    held after the [disconnect] that was to clear it. *)
Theorem disconnect_after_write_blocks :
  forall pyserial data,
    (forall w0,
       disconnect pyserial (world_of (write pyserial data w0)) =
         Blocked (world_of (write pyserial data w0)) /\
       _ser (mgr (world_of (write pyserial data w0))) = _ser (mgr w0) /\
       log (world_of (write pyserial data w0)) = log w0) /\
    disconnect working_device
      (run_calls true working_device
         [OpConnect "COM3"; OpWrite data] (fresh None)) =
      Blocked
        (run_calls true working_device
           [OpConnect "COM3"; OpWrite data] (fresh None)) /\
    _ser (mgr (run_calls true working_device
                 [OpConnect "COM3"; OpWrite data; OpDisconnect]
                 (fresh None))) =
      Some (mkSerial "COM3" 115200 0x1.999999999999ap-4%float true).
Proof.
  intros pyserial data. split; [|split].
  - intros w0. rewrite write_blocks. simpl.
    split; [|split; reflexivity].
    apply with_lock_held. reflexivity.
  - reflexivity.
  - reflexivity.
Qed.

(** C8 (the code against the claim): without pyserial, on a new manager
    on which a [write] was called, [connect] still fails with
    [CapabilityUnavailable], but [is_connected] does not answer false:
    it blocks on the lock the [write] holds. *)
Theorem is_connected_after_write_blocks :
  forall pyserial c data port,
    visited false pyserial
      (run_calls false pyserial [OpWrite data] (fresh c)) /\
    connect false pyserial port
      (run_calls false pyserial [OpWrite data] (fresh c)) =
      Raised CapabilityUnavailable
        (run_calls false pyserial [OpWrite data] (fresh c)) /\
    is_connected (run_calls false pyserial [OpWrite data] (fresh c)) =
      Blocked (run_calls false pyserial [OpWrite data] (fresh c)).
Proof.
  intros pyserial c data port.
  split; [|split].
  - unfold run_calls. cbn [fold_left]. apply visited_call, visited_fresh.
  - reflexivity.
  - reflexivity.
Qed.

(** C4, against the claim as written: on a device whose [close()]
    raises, after [connect], [disconnect] and [connect], all three
    having returned, two handles are open at the device: the one the
    manager holds and the one it dropped when its close failed. *)
Lemma two_open_handles_after_failed_close :
  reachable true unclosable_device
    (run_calls true unclosable_device
       [OpConnect "COM3"; OpDisconnect; OpConnect "COM3"] (fresh None)) /\
  open_at_device
    (log (run_calls true unclosable_device
            [OpConnect "COM3"; OpDisconnect; OpConnect "COM3"] (fresh None)))
  = 2%nat.
Proof.
  split; [|reflexivity].
  unfold run_calls. cbn [fold_left].
  repeat (apply reachable_call; [|reflexivity]).
  apply reachable_fresh.
Qed.

(** The handle invariant on a connected manager on which a [write] is
    blocked. *)
Lemma visited_handle_absent_or_open_witness :
  handle_absent_or_open
    (mgr (run_calls true working_device
            [OpConnect "COM3"; OpWrite []] (fresh None))) /\
  open_at_device
    (log (run_calls true working_device
            [OpConnect "COM3"; OpWrite []] (fresh None))) = 1%nat.
Proof.
  destruct (visited_handle_absent_or_open true working_device
              (run_calls true working_device
                 [OpConnect "COM3"; OpWrite []] (fresh None)))
    as (Hh & _ & _ & Hd & _).
  - unfold run_calls. cbn [fold_left].
    repeat apply visited_call. apply visited_fresh.
  - split; [exact Hh | exact Hd].
Defined.

(** Two [connect "COM3"] on a new manager and a working device. *)
Lemma connect_twice_witness :
  exists w1 h,
    connect true working_device "COM3" (fresh None) = Returned tt w1 /\
    connect true working_device "COM3" w1 = Returned tt w1 /\
    _ser (mgr w1) = Some h /\
    is_open h = true /\
    open_handles (mgr w1) = [h] /\
    unclosed (log w1) = 1%nat.
Proof.
  apply (connect_twice true working_device (fresh None) "COM3").
  - reflexivity.
  - apply reachable_fresh.
  - discriminate.
  - reflexivity.
Defined.

(** [connect "COM3"] on a new manager and a device that refuses. *)
Lemma connect_open_failure_witness :
  exists w',
    connect true broken_device "COM3" (fresh None) =
      Raised (SerialException "could not open port") w' /\
    mgr w' = mgr (fresh None) /\
    _ser (mgr (fresh None)) = None /\
    _ser (mgr w') = None /\
    log w' = [ {| ev_call := CallOpen "COM3" 115200 0x1.999999999999ap-4%float;
                  ev_ok := false |} ].
Proof.
  apply (connect_open_failure true broken_device (fresh None) "COM3"
           (SerialException "could not open port")).
  - reflexivity.
  - apply reachable_fresh.
  - discriminate.
  - reflexivity.
  - reflexivity.
Defined.

(** [disconnect] after a [connect], on a device whose [close] raises. *)
Lemma disconnect_never_fails_witness :
  exists w',
    disconnect unclosable_device
      (world_of (connect true unclosable_device "COM3" (fresh None))) =
      Returned tt w' /\
    _ser (mgr w') = None /\
    _lock (mgr w') = false.
Proof.
  destruct (disconnect_never_fails unclosable_device
              (world_of (connect true unclosable_device "COM3" (fresh None))))
    as (_ & H).
  destruct (H eq_refl) as (w' & Hd & Hs & Hl & _).
  exists w'. repeat split; assumption.
Defined.

(** Without pyserial, after a refused [connect] and a [disconnect]. *)
Lemma connect_without_pyserial_witness :
  connect false working_device "COM3"
    (world_of (exec false working_device OpDisconnect (fresh None))) =
    Raised CapabilityUnavailable
      (world_of (exec false working_device OpDisconnect (fresh None))) /\
  is_connected (world_of (exec false working_device OpDisconnect (fresh None))) =
    Returned false (world_of (exec false working_device OpDisconnect (fresh None))).
Proof.
  destruct (connect_without_pyserial false working_device "COM3"
              (world_of (exec false working_device OpDisconnect (fresh None)))
              eq_refl) as (Hc & Hreach).
  split; [exact Hc|].
  apply Hreach.
  apply reachable_call; [apply reachable_fresh | reflexivity].
Defined.

(** The three ways [list_ports_blocking] returns. *)
Lemma list_ports_blocking_never_raises_witness :
  list_ports_blocking false working_device (fresh None) =
    Returned [] (fresh None) /\
  list_ports_blocking true broken_device (fresh None) =
    Returned [] (record CallComports false (fresh None)) /\
  list_ports_blocking true working_device (fresh None) =
    Returned ["COM3"] (record CallComports true (fresh None)).
Proof.
  split; [|split].
  - apply (proj1 (proj2
      (list_ports_blocking_never_raises false working_device (fresh None)))).
    reflexivity.
  - apply (proj1 (proj2 (proj2
      (list_ports_blocking_never_raises true broken_device (fresh None))))
      (OSError "enumeration failed")); reflexivity.
  - apply (proj2 (proj2 (proj2
      (list_ports_blocking_never_raises true working_device (fresh None))))
      [mkListPortInfo "COM3" "USB Serial Device"]); reflexivity.
Defined.

(* ================================================================== *)
(** ** More on the manager *)
(* ================================================================== *)

(** The two tactics of the method-by-method proofs, for the sections
    below: unfold the methods and the monad, then split on the innermost
    condition, using an equation of the context where there is one. *)
Ltac run_methods :=
  unfold exec, connect, disconnect, list_ports_blocking, write, read,
    is_connected, has_serial, with_lock, bind, ret, raise, try_except,
    get_ser, get_cfg, set_ser, serial_Serial, list_ports_comports,
    Serial_close, Serial_write, Serial_read, set_lock, record in *;
  cbn in *.

Ltac split_cases :=
  repeat match goal with
         | |- context [match ?x with _ => _ end] =>
             lazymatch x with
             | context [match _ with _ => _ end] => fail
             | true => fail
             | false => fail
             | _ =>
                 first [ match goal with H : x = _ |- _ => rewrite H end
                       | destruct x eqn:? ];
                 cbn in *
             end
         end.

Section ManagerFurther.

Variable HAS_SERIAL : bool.
Variable pyserial : Library.

(** X1: A [connect] that returns leaves the manager connected: the handle
    field holds an open handle and [is_connected] answers true. *)
Theorem connect_returned_is_connected :
  forall w port w1,
    connect HAS_SERIAL pyserial port w = Returned tt w1 ->
    is_connected w1 = Returned true w1 /\
    exists h, _ser (mgr w1) = Some h /\ is_open h = true.
Proof.
  intros [[c s l] lg] port w1 H.
  assert (Hw1 : _lock (mgr w1) = false /\
                exists h, _ser (mgr w1) = Some h /\ is_open h = true).
  { revert H. run_methods. split_cases; intros H; inversion H; subst;
      simpl; eauto.
    destruct s as [h|]; [eauto | discriminate]. }
  destruct Hw1 as (Hl & h & Hs & Ho).
  split; [|eauto].
  rewrite is_connected_free by exact Hl. rewrite Hs. simpl. now rewrite Ho.
Qed.

(** X2: A second [disconnect] in a row finds nothing to do: it returns the
    world it was given, so no handle is closed twice. *)
Theorem disconnect_twice :
  forall w,
    _lock (mgr w) = false ->
    disconnect pyserial (world_of (disconnect pyserial w)) =
      Returned tt (world_of (disconnect pyserial w)).
Proof.
  intros w Hl. rewrite (disconnect_free _ w Hl). simpl.
  rewrite disconnect_free by reflexivity. reflexivity.
Qed.

(** X3: [connect] then [disconnect] on a manager without a handle: the
    manager is back as it was, and the device has seen one open and then
    one close of the handle that open created, whether or not the close
    raised. *)
Theorem connect_disconnect_round_trip :
  forall w port,
    HAS_SERIAL = true ->
    port <> "" ->
    _lock (mgr w) = false ->
    _ser (mgr w) = None ->
    lib_open pyserial (log w) port
      (baudrate (cfg (mgr w))) (timeout_s (cfg (mgr w))) = None ->
    exists w1 w2 ok,
      connect HAS_SERIAL pyserial port w = Returned tt w1 /\
      disconnect pyserial w1 = Returned tt w2 /\
      mgr w2 = mgr w /\
      log w2 =
        {| ev_call := CallClose (mkSerial port (baudrate (cfg (mgr w)))
                                          (timeout_s (cfg (mgr w))) true);
           ev_ok := ok |}
        :: {| ev_call := CallOpen port (baudrate (cfg (mgr w)))
                                  (timeout_s (cfg (mgr w)));
              ev_ok := true |}
        :: log w /\
      unclosed (log w2) = unclosed (log w).
Proof.
  intros [[c s l] lg] port HS Hp Hl Hs Hopen. simpl in *. subst s l.
  pose proof (connect_opens HAS_SERIAL pyserial
                {| mgr := {| cfg := c; _ser := None; _lock := false |};
                   log := lg |}
                port HS Hp eq_refl eq_refl Hopen) as H1.
  eexists. eexists. eexists. split; [exact H1|].
  split; [apply disconnect_free; reflexivity|].
  repeat split.
Qed.


(** X5: Once the lock is held and not released, as after a [write] or a
    [read], every method that takes the lock blocks: [is_connected],
    [disconnect], and [connect] unless it fails its argument checks
    first.  [list_ports_blocking] does not take the lock and still
    returns. *)
Theorem after_write_manager_is_stuck :
  forall w0 data port,
    let w := world_of (write pyserial data w0) in
    is_connected w = Blocked w /\
    disconnect pyserial w = Blocked w /\
    connect HAS_SERIAL pyserial port w =
      (if negb HAS_SERIAL then Raised CapabilityUnavailable w
       else if (port =? "")%string then Raised InvalidArgument w
       else Blocked w) /\
    write pyserial data w = Blocked w /\
    completed (list_ports_blocking HAS_SERIAL pyserial w) = true.
Proof.
  intros w0 data port w. subst w. rewrite write_blocks. simpl.
  split; [apply with_lock_held; reflexivity|].
  split; [apply with_lock_held; reflexivity|].
  split.
  { unfold connect. destruct (negb HAS_SERIAL); [reflexivity|].
    destruct (port =? "")%string; [reflexivity|].
    apply with_lock_held. reflexivity. }
  split; [rewrite write_blocks; reflexivity|].
  unfold list_ports_blocking, try_except, bind, list_ports_comports.
  destruct HAS_SERIAL; simpl; [|reflexivity].
  destruct (lib_comports pyserial (log w0)); reflexivity.
Qed.

(** X6: The only method that raises is [connect], and it raises one of three
    things: the missing-library error, the empty-port error, or the
    exception [serial.Serial] raised, whatever that is.  [write] and
    [read] never raise, so the "Not connected." they contain is never
    reached: where that error comes out of a call, the call is [connect]
    and the library raised it. *)
Theorem only_connect_raises :
  forall o w e w',
    exec HAS_SERIAL pyserial o w = Raised e w' ->
    (forall data, o <> OpWrite data) /\
    (forall n, o <> OpRead n) /\
    (exists port,
       o = OpConnect port /\
       ((HAS_SERIAL = false /\ e = CapabilityUnavailable) \/
        (HAS_SERIAL = true /\ port = "" /\ e = InvalidArgument) \/
        (HAS_SERIAL = true /\ port <> "" /\
         lib_open pyserial (log w) port
           (baudrate (cfg (mgr w))) (timeout_s (cfg (mgr w))) = Some e))) /\
    (e = NotConnected ->
     exists port,
       o = OpConnect port /\
       lib_open pyserial (log w) port
         (baudrate (cfg (mgr w))) (timeout_s (cfg (mgr w))) =
         Some NotConnected).
Proof.
  intros o w e w' H.
  assert (Hport : exists port,
            o = OpConnect port /\
            ((HAS_SERIAL = false /\ e = CapabilityUnavailable) \/
             (HAS_SERIAL = true /\ port = "" /\ e = InvalidArgument) \/
             (HAS_SERIAL = true /\ port <> "" /\
              lib_open pyserial (log w) port
                (baudrate (cfg (mgr w))) (timeout_s (cfg (mgr w))) = Some e))).
  { destruct w as [[c s l] lg].
    destruct o as [| |port| | |data|n].
    - discriminate.
    - revert H. run_methods. split_cases; discriminate.
    - exists port. split; [reflexivity|].
      revert H. unfold exec, bind, connect.
      destruct HAS_SERIAL; simpl.
      + destruct (port =? "")%string eqn:Hp.
        * apply String.eqb_eq in Hp. intros H. inversion H. auto.
        * apply String.eqb_neq in Hp. run_methods.
          split_cases; intros H; inversion H; subst; auto 6.
      + intros H. inversion H. auto.
    - revert H. run_methods. split_cases; discriminate.
    - revert H. run_methods. split_cases; discriminate.
    - unfold exec, bind in H. rewrite write_blocks in H. discriminate.
    - unfold exec, bind in H. rewrite read_blocks in H. discriminate. }
  destruct Hport as (port & Ho & Hcases).
  split; [intros data Hd; congruence|].
  split; [intros n Hn; congruence|].
  split; [exists port; auto|].
  intros He. exists port. split; [exact Ho|].
  destruct Hcases as [(_ & Hc) | [(_ & _ & Hc) | (_ & _ & Hc)]].
  - rewrite He in Hc. discriminate.
  - rewrite He in Hc. discriminate.
  - rewrite <- He. exact Hc.
Qed.

(** X7: Every handle the manager holds was opened on a non-empty port with
    the baud rate and the timeout of the manager's configuration. *)
Theorem handle_opened_with_configuration :
  forall w h,
    reachable HAS_SERIAL pyserial w ->
    _ser (mgr w) = Some h ->
    ser_port h <> "" /\
    ser_baudrate h = baudrate (cfg (mgr w)) /\
    ser_timeout h = timeout_s (cfg (mgr w)).
Proof.
  intros w h Hr. revert h.
  induction Hr as [c | o w Hr IH Hdone]; [discriminate|].
  pose proof (proj1 (reachable_consistent _ _ _ Hr)) as Hl.
  destruct w as [[c s l] lg]. simpl in *. subst l.
  destruct o as [| |port| | |data|n]; run_methods; split_cases;
    try discriminate; try exact IH.
  (* the one case that stores a handle: [connect] after a successful open *)
  intros h Hh. inversion Hh. subst. simpl.
  repeat split. apply String.eqb_neq. assumption.
Qed.

(** X8: No byte ever reaches the device or comes from it: in every reachable
    state the history holds opens, closes and enumerations only. *)
Theorem no_device_io :
  forall w,
    reachable HAS_SERIAL pyserial w ->
    forallb (fun e => negb (is_io_call (ev_call e))) (log w) = true.
Proof.
  intros w Hr.
  induction Hr as [c | o w Hr IH Hdone]; [reflexivity|].
  pose proof (proj1 (reachable_consistent _ _ _ Hr)) as Hl.
  destruct w as [[c s l] lg]. simpl in *. subst l.
  destruct o as [| |port| | |data|n]; run_methods; split_cases;
    try discriminate; exact IH.
Qed.

End ManagerFurther.

(* ================================================================== *)
(** ** The serial controls of the window *)
(* ================================================================== *)

Section SetupTabProperties.

Variable HAS_SERIAL : bool.
Variable pyserial : Library.

Ltac run_handlers :=
  unfold handle, toggle_connect, _connect, _disconnect, _on_scan_toggle,
    refresh_com_ports, worker, _apply_scan_state, _set_com_ports,
    run_callback, init_serial_ui, showwarning, showerror, after_0,
    start_worker, call_mgr, modify, read_attr, gtry_except, gbind, gret,
    has_serial, ret in *;
  cbn in *.

Lemma set_com_ports_inv : forall g ports,
  gui_inv g -> ports <> [] ->
  exists g',
    _set_com_ports ports g = Done tt g' /\ gui_inv g' /\
    serial_mgr g' = serial_mgr g /\ workers g' = workers g /\
    after_queue g' = after_queue g.
Proof.
  intros g ports (Hc & Hcfg & Hst & Hsel & Hq & Ho) Hne.
  eexists. split; [reflexivity|].
  split; [|repeat split].
  split; [exact Hc|]. split; [exact Hcfg|]. split; [exact Hst|].
  split; [|split; [exact Hq | exact Ho]].
  unfold selection_listed. cbn.
  destruct ports as [|p ps]; [congruence|]. left. reflexivity.
Qed.

Lemma opens_satisfy_cons : forall ok baud timeout e l,
  opens_satisfy ok baud timeout l ->
  match ev_call e with
  | CallOpen port b t => ok port = true /\ b = baud /\ t = timeout
  | _ => True
  end ->
  opens_satisfy ok baud timeout (e :: l).
Proof.
  intros ok baud timeout e l Hl He port b t r [Heq | Hin].
  - subst e. exact He.
  - exact (Hl port b t r Hin).
Qed.

(** Name the attributes of a window and the parts of its invariant. *)
Ltac open_window g H :=
  let Hc := fresh "Hc" in
  let Hcases := fresh "Hcases" in
  destruct H as (Hc & ? & ? & ? & ? & ?);
  destruct (consistent_cases _ Hc) as (? & Hcases);
  destruct g as [ssp [[c s l] lg] sv cv vals cst rst status btn dlg q wk];
  unfold status_matches, selection_listed in *;
  cbn in *; subst l c;
  destruct Hcases as [(? & ?) | (?h & ? & ? & ?)]; subst s;
  repeat match goal with H : _ /\ _ |- _ => destruct H end.

(** Close the invariant of the window a handler returned. *)
Ltac close_window :=
  eexists; split; [reflexivity|];
  unfold gui_inv, status_matches, selection_listed, consistent,
    handle_absent_or_open, open_handles;
  cbn;
  repeat match goal with
         | |- _ /\ _ => split
         | |- opens_satisfy _ _ _ (_ :: _) =>
             apply opens_satisfy_cons; [|cbn]
         | H : ?x = true |- context [if ?x then _ else _] => rewrite H; cbn
         | H : ?x = _ |- context [unclosed ?l] =>
             match x with unclosed l => rewrite H; cbn end
         end;
  try assumption; try reflexivity; eauto;
  try (unfold selectable_port, startswith;
       repeat match goal with
              | H : ?x = false |- context [?x] => rewrite H
              end;
       reflexivity).

Lemma toggle_connect_inv : forall g,
  gui_inv g ->
  exists g', toggle_connect HAS_SERIAL pyserial g = Done tt g' /\ gui_inv g'.
Proof.
  intros g H. open_window g H.
  - run_handlers. run_methods. split_cases; close_window.
  - run_handlers. run_methods. split_cases; close_window.
Qed.

Lemma refresh_com_ports_inv : forall g,
  gui_inv g ->
  exists g', refresh_com_ports HAS_SERIAL g = Done tt g' /\ gui_inv g'.
Proof.
  intros g H.
  open_window g H; run_handlers; split_cases; close_window.
Qed.

Lemma on_scan_toggle_inv : forall g,
  gui_inv g ->
  exists g', _on_scan_toggle HAS_SERIAL g = Done tt g' /\ gui_inv g'.
Proof.
  intros g H.
  open_window g H; run_handlers; split_cases; close_window.
Qed.

Lemma existsb_eqb_In : forall p (l : list string),
  existsb (String.eqb p) l = true -> In p l.
Proof.
  intros p l H. apply existsb_exists in H. destruct H as (x & Hx & Heq).
  apply String.eqb_eq in Heq. subst x. exact Hx.
Qed.

Lemma select_port_inv : forall g p,
  gui_inv g ->
  existsb (String.eqb p) (com_combo_values g) = true ->
  gui_inv (with_com_var p g).
Proof.
  intros g p (Hc & Hcfg & Hst & Hsel & Hq & Ho) Hp.
  apply existsb_eqb_In in Hp.
  split; [exact Hc|]. split; [exact Hcfg|]. split; [exact Hst|].
  split; [|split; [exact Hq | exact Ho]].
  unfold selection_listed. cbn.
  destruct (com_combo_values g); [contradiction | exact Hp].
Qed.

Lemma worker_inv : forall g,
  gui_inv g ->
  exists g', worker HAS_SERIAL pyserial g = Done tt g' /\ gui_inv g'.
Proof.
  intros g H.
  assert (Hq' : forall f ports,
            (forall ps, In (CbSetComPorts ps) (after_queue g) -> ps <> []) ->
            f = CbSetComPorts ports -> ports <> [] ->
            forall ps, In (CbSetComPorts ps) (after_queue g ++ [f]) -> ps <> []).
  { intros f ports Hq Hf Hne ps Hin. apply in_app_or in Hin.
    destruct Hin as [Hin | [Hin | []]]; [exact (Hq ps Hin)|].
    subst f. inversion Hin. subst ps. exact Hne. }
  open_window g H; run_handlers; run_methods; split_cases; close_window;
    eapply Hq'; eauto; discriminate.
Qed.

Lemma after_fires_inv : forall g,
  gui_inv g ->
  exists g', handle HAS_SERIAL pyserial AfterFires g = Done tt g' /\ gui_inv g'.
Proof.
  intros g H.
  pose proof H as (_ & _ & _ & _ & Hq & _).
  unfold handle, gbind, read_attr.
  destruct (after_queue g) as [|f rest] eqn:Hqueue.
  - exists g. split; [reflexivity | exact H].
  - assert (Hrest : gui_inv (with_after_queue rest g)).
    { destruct H as (Hc & Hcfg & Hst & Hsel & _ & Ho).
      split; [exact Hc|]. split; [exact Hcfg|]. split; [exact Hst|].
      split; [exact Hsel|]. split; [|exact Ho].
      intros ps Hin. apply Hq. right. exact Hin. }
    unfold modify. destruct f as [|ports]; simpl.
    + apply refresh_com_ports_inv. exact Hrest.
    + destruct (set_com_ports_inv (with_after_queue rest g) ports Hrest)
        as (g' & Hg' & Hinv & _).
      { apply Hq. left. reflexivity. }
      exists g'. split; assumption.
Qed.

Lemma handle_inv : forall ev g,
  gui_inv g ->
  possible ev g = true ->
  exists g', handle HAS_SERIAL pyserial ev g = Done tt g' /\ gui_inv g'.
Proof.
  intros ev g H Hp. destruct ev as [| | |p| |].
  - apply toggle_connect_inv. exact H.
  - apply refresh_com_ports_inv. exact H.
  - unfold handle, gbind, modify. apply on_scan_toggle_inv.
    destruct H as (Hc & Hcfg & Hst & Hsel & Hq & Ho).
    repeat (split; [assumption|]). assumption.
  - eexists. split; [reflexivity|]. apply select_port_inv; assumption.
  - unfold handle, gbind, modify. apply worker_inv.
    destruct H as (Hc & Hcfg & Hst & Hsel & Hq & Ho).
    repeat (split; [assumption|]). assumption.
  - apply after_fires_inv. exact H.
Qed.

Lemma init_serial_ui_inv : forall scan,
  exists g',
    init_serial_ui HAS_SERIAL (setup_tab_created scan) = Done tt g' /\
    gui_inv g'.
Proof.
  intros scan. run_handlers.
  destruct scan, HAS_SERIAL; cbn; eexists; (split; [reflexivity|]);
    unfold gui_inv, consistent, handle_absent_or_open, status_matches,
      selection_listed, opens_satisfy; cbn; intuition; discriminate.
Qed.

Lemma gui_reachable_inv : forall allowed scan g,
  gui_reachable HAS_SERIAL pyserial allowed scan g -> gui_inv g.
Proof.
  intros allowed scan g Hr.
  induction Hr as [| ev g Hr IH Hal Hp Hnh].
  - destruct (init_serial_ui_inv scan) as (g' & Hg' & Hinv).
    rewrite Hg'. exact Hinv.
  - destruct (handle_inv ev g IH Hp) as (g' & Hg' & Hinv).
    rewrite Hg'. exact Hinv.
Qed.


(** X9: Every handler of the serial controls comes back without an
    exception: in a reachable state, whatever event is possible, its
    handler neither raises into the main loop nor blocks it. *)
Theorem gui_handlers_return :
  forall allowed scan g ev,
    gui_reachable HAS_SERIAL pyserial allowed scan g ->
    possible ev g = true ->
    exists g', handle HAS_SERIAL pyserial ev g = Done tt g'.
Proof.
  intros allowed scan g ev Hr Hp.
  apply gui_reachable_inv in Hr.
  destruct (handle_inv ev g Hr Hp) as (g' & Hg' & _).
  exists g'. exact Hg'.
Qed.

(** X10: The status line and the button tell the truth: while the manager
    holds a handle, it is open, the status reads "Connected: " followed
    by the port of that handle and the button reads "Disconnect";
    otherwise they read "Disconnected" and "Connect". *)
Theorem gui_status_matches_manager :
  forall allowed scan g,
    gui_reachable HAS_SERIAL pyserial allowed scan g ->
    match _ser (mgr (serial_mgr g)) with
    | Some h =>
        is_open h = true /\
        conn_status_var g = "Connected: " ++ ser_port h /\
        btn_connect_text g = "Disconnect"
    | None =>
        conn_status_var g = "Disconnected" /\
        btn_connect_text g = "Connect"
    end.
Proof.
  intros allowed scan g Hr.
  apply gui_reachable_inv in Hr.
  destruct Hr as (_ & _ & Hst & _). exact Hst.
Qed.

(** X11: The window only ever asks the device to open a port that is not
    empty and does not start with "(", which keeps the bracketed
    placeholders of the combobox away from it, and always at 115200 baud
    with the 0.1 s timeout. *)
Theorem gui_opens_only_selectable_ports :
  forall allowed scan g port b t r,
    gui_reachable HAS_SERIAL pyserial allowed scan g ->
    In {| ev_call := CallOpen port b t; ev_ok := r |} (log (serial_mgr g)) ->
    port <> "" /\
    startswith port "(" = false /\
    b = 115200 /\
    t = 0x1.999999999999ap-4%float.
Proof.
  intros allowed scan g port b t r Hr Hin.
  apply gui_reachable_inv in Hr.
  destruct Hr as (_ & _ & _ & _ & _ & Ho).
  destruct (Ho port b t r Hin) as (Hok & Hb & Ht).
  unfold selectable_port in Hok.
  apply andb_true_iff in Hok. destruct Hok as (Hne & Hpar).
  apply negb_true_iff in Hne, Hpar. apply String.eqb_neq in Hne.
  auto.
Qed.

(** X12: The combobox never shows a port that is not in its list: its
    variable is one of its entries, or empty while the list is. *)
Theorem gui_selection_listed :
  forall allowed scan g,
    gui_reachable HAS_SERIAL pyserial allowed scan g ->
    match com_combo_values g with
    | [] => com_var g = ""
    | _ => In (com_var g) (com_combo_values g)
    end.
Proof.
  intros allowed scan g Hr.
  apply gui_reachable_inv in Hr.
  destruct Hr as (_ & _ & _ & Hsel & _). exact Hsel.
Qed.

(** X13: Started with the scan disabled, as main.py starts it, the window
    makes no call into pyserial at all for as long as the scan check
    button is left alone: clicking Connect or Refresh, or picking the one
    entry of the combobox, leaves the device history empty. *)
Theorem scan_disabled_makes_no_device_call :
  forall g,
    gui_reachable HAS_SERIAL pyserial not_toggle_scan false g ->
    log (serial_mgr g) = [] /\
    _ser (mgr (serial_mgr g)) = None /\
    com_combo_values g = ["(scan disabled)"] /\
    com_var g = "(scan disabled)" /\
    workers g = 0%nat /\
    after_queue g = [].
Proof.
  intros g Hr.
  assert (H : (log (serial_mgr g) = [] /\
               _ser (mgr (serial_mgr g)) = None /\
               com_combo_values g = ["(scan disabled)"] /\
               com_var g = "(scan disabled)" /\
               workers g = 0%nat /\
               after_queue g = []) /\
              _lock (mgr (serial_mgr g)) = false /\
              scan_serial_ports g = false).
  { induction Hr as [| ev g Hr IH Hal Hp Hnh].
    - run_handlers. destruct HAS_SERIAL; cbn; auto 10.
    - clear Hnh Hr.
      destruct IH as ((Hlog & Hs & Hvals & Hcv & Hwk & Hq) & Hl & Hssp).
      destruct g as [ssp [[c s l] lg] sv cv vals cst rst status btn dlg q wk].
      cbn in *. subst.
      destruct ev as [| | |p| |]; try discriminate.
      + run_handlers. run_methods. destruct HAS_SERIAL; cbn; auto 10.
      + run_handlers. auto 10.
      + cbn in Hp. rewrite orb_false_r in Hp. apply String.eqb_eq in Hp.
        subst p. cbn. auto 10. }
  exact (proj1 H).
Qed.

End SetupTabProperties.

(* ================================================================== *)
(** ** The tick and the live plot *)
(* ================================================================== *)

Lemma int_range_snoc : forall lo n,
  (int_range lo n ++ [Z.of_nat (lo + n)])%list = int_range lo (S n).
Proof.
  intros lo n. unfold int_range. rewrite seq_S, map_app. reflexivity.
Qed.

Lemma int_range_length : forall lo n, length (int_range lo n) = n.
Proof.
  intros lo n. unfold int_range. now rewrite length_map, length_seq.
Qed.

Lemma last_n_map : forall A B (f : A -> B) k l,
  last_n k (map f l) = map f (last_n k l).
Proof.
  intros A B f k l. unfold last_n. now rewrite length_map, skipn_map.
Qed.

Lemma last_n_int_range : forall lo n,
  last_n n (int_range lo (S n)) = int_range (S lo) n.
Proof.
  intros lo n. unfold last_n. rewrite int_range_length.
  replace (S n - n)%nat with 1%nat by lia. reflexivity.
Qed.

Lemma int_range_last : forall lo n d,
  last (int_range lo (S n)) d = Z.of_nat (lo + n).
Proof.
  intros lo n d. rewrite <- int_range_snoc. apply last_last.
Qed.

Lemma update_plot_int_range : forall lo n ys calls,
  _update_plot (int_range lo (S n)) ys calls =
    DrawIdle :: AutoscaleView false true :: Relim
    :: SetXlim (Z.of_nat lo) (Z.of_nat (lo + n))
    :: SetData (int_range lo (S n)) ys :: calls.
Proof.
  intros lo n ys calls. unfold _update_plot.
  pose proof (int_range_last lo n (Z.of_nat lo)) as Hl.
  assert (Hh : int_range lo (S n) = Z.of_nat lo :: int_range (S lo) n)
    by reflexivity.
  rewrite Hh in *. cbv beta iota zeta. rewrite Hl. reflexivity.
Qed.

Lemma fire_timer_ticked : forall tick_ms n s,
  ticked tick_ms n s ->
  exists s',
    fire_timer s = Some s' /\
    ticked tick_ms (S n) s' /\
    hd "" (display_vars s') = "Tick: " ++ str_int (Z.of_nat n) /\
    tl (display_vars s') = tl (display_vars s) /\
    plot_calls s' =
      DrawIdle :: AutoscaleView false true :: Relim
      :: SetXlim (Z.of_nat (S n - 200)) (Z.of_nat n)
      :: SetData (live_x s') (live_y s') :: plot_calls s.
Proof.
  intros tick_ms n [tm dv xs ys idx calls tms]
    (Htm & Htms & Hdv & Hidx & Hxs & Hys).
  cbn in *. subst tm tms idx.
  destruct dv as [|d0 dv]; [discriminate|].
  unfold fire_timer, on_tick. cbn [timers display_vars live_x live_y
    sample_index TICK_MS plot_calls].
  assert (Hxs1 : (xs ++ [Z.of_nat n])%list =
                 int_range (n - 200) (S (Nat.min n 200))).
  { rewrite Hxs, <- int_range_snoc. do 3 f_equal. lia. }
  assert (Hys1 : (ys ++ [_fake_measurement (Z.of_nat n)])%list =
                 map _fake_measurement (xs ++ [Z.of_nat n])%list).
  { rewrite Hys, map_app. reflexivity. }
  rewrite Hys1, Hxs1. rewrite int_range_length.
  destruct (200 <? S (Nat.min n 200))%nat eqn:Hover.
  - apply Nat.ltb_lt in Hover.
    assert (Hmin : Nat.min n 200 = 200%nat) by lia.
    rewrite Hmin, last_n_map, last_n_int_range.
    rewrite (update_plot_int_range (S (n - 200)) 199).
    eexists. split; [reflexivity|].
    unfold ticked.
    cbn -[_fake_measurement int_range str_int Nat.min Nat.sub Z.of_nat].
    replace (Nat.min (S n) 200) with 200%nat by lia.
    repeat split; try reflexivity; try assumption; try lia;
      repeat f_equal; lia.
  - apply Nat.ltb_ge in Hover.
    assert (Hmin : Nat.min n 200 = n) by lia.
    rewrite Hmin. replace (n - 200)%nat with 0%nat by lia.
    rewrite (update_plot_int_range 0 n).
    eexists. split; [reflexivity|].
    unfold ticked.
    cbn -[_fake_measurement int_range str_int Nat.min Nat.sub Z.of_nat].
    replace (Nat.min (S n) 200) with (S n) by lia.
    repeat split; try reflexivity; try assumption; try lia;
      repeat f_equal; lia.
Qed.

Lemma fire_timers_ticked : forall tick_ms n,
  exists s,
    fire_timers n (live_plot_created tick_ms) = Some s /\
    ticked tick_ms n s /\
    tl (display_vars s) = tl (display_vars (live_plot_created tick_ms)).
Proof.
  intros tick_ms n. induction n as [|n IH].
  - eexists. split; [reflexivity|]. split; [|reflexivity].
    unfold ticked. cbn. repeat split.
  - destruct IH as (s & Hs & Ht & Htl).
    destruct (fire_timer_ticked tick_ms n s Ht)
      as (s' & Hs' & Ht' & _ & Htl' & _).
    exists s'. cbn [fire_timers]. rewrite Hs.
    split; [exact Hs'|]. split; [exact Ht'|]. congruence.
Qed.

(** X14: The sliding window: [n] ticks after start-up the tick counter is
    [n], the x values are the last 200 sample indices (all of them
    while there are fewer), each y value is the measurement of the x
    value at its position, exactly one timer is armed, the first display
    shows the index of the last sample and the other seven are
    untouched. *)
Theorem live_window_after_ticks :
  forall tick_ms n,
    exists s,
      fire_timers n (live_plot_created tick_ms) = Some s /\
      sample_index s = Z.of_nat n /\
      live_x s = int_range (n - 200) (Nat.min n 200) /\
      live_y s = map _fake_measurement (live_x s) /\
      length (live_x s) = Nat.min n 200 /\
      length (live_y s) = Nat.min n 200 /\
      timers s = [tick_ms] /\
      hd "" (display_vars s) =
        match n with
        | O => "Display 1"
        | S k => "Tick: " ++ str_int (Z.of_nat k)
        end /\
      tl (display_vars s) = tl (display_vars (live_plot_created tick_ms)).
Proof.
  intros tick_ms n.
  assert (Hhd : exists s,
            fire_timers n (live_plot_created tick_ms) = Some s /\
            ticked tick_ms n s /\
            tl (display_vars s) =
              tl (display_vars (live_plot_created tick_ms)) /\
            hd "" (display_vars s) =
              match n with
              | O => "Display 1"
              | S k => "Tick: " ++ str_int (Z.of_nat k)
              end).
  { destruct n as [|n].
    - eexists. split; [reflexivity|]. unfold ticked. cbn. repeat split.
    - destruct (fire_timers_ticked tick_ms n) as (s & Hs & Ht & Htl).
      destruct (fire_timer_ticked tick_ms n s Ht)
        as (s' & Hs' & Ht' & Hd & Htl' & _).
      exists s'. cbn [fire_timers]. rewrite Hs.
      split; [exact Hs'|]. split; [exact Ht'|].
      split; [congruence | exact Hd]. }
  destruct Hhd as (s & Hs & (_ & Htm & _ & Hidx & Hxs & Hys) & Htl & Hd).
  exists s. repeat split; try assumption.
  - rewrite Hxs. apply int_range_length.
  - rewrite Hys, length_map, Hxs. apply int_range_length.
Qed.

(** X15: Each tick redraws the plot on the window it has just updated: the
    line gets the current x and y values, and the x axis is set to run
    from the oldest sample index kept to the newest. *)
Theorem plot_follows_window :
  forall tick_ms n,
    exists s older,
      fire_timers (S n) (live_plot_created tick_ms) = Some s /\
      plot_calls s =
        DrawIdle :: AutoscaleView false true :: Relim
        :: SetXlim (Z.of_nat (S n - 200)) (Z.of_nat n)
        :: SetData (live_x s) (live_y s) :: older.
Proof.
  intros tick_ms n.
  destruct (fire_timers_ticked tick_ms n) as (s & Hs & Ht & _).
  destruct (fire_timer_ticked tick_ms n s Ht) as (s' & Hs' & _ & _ & _ & Hp).
  exists s', (plot_calls s). cbn [fire_timers]. rewrite Hs.
  split; assumption.
Qed.

Lemma fake_measurement_mod : forall i,
  _fake_measurement i = _fake_measurement (i mod 100).
Proof.
  intros i. unfold _fake_measurement.
  rewrite <- (Z.mod_mod_divide i 100 50) by (exists 2; reflexivity).
  rewrite (Z.mul_mod_idemp_l i 7 100) by lia.
  reflexivity.
Qed.

Lemma fake_measurement_table :
  forallb
    (fun r => ((0 <=? _fake_measurement r)
               && (_fake_measurement r <=? _fake_measurement 99))%float)
    (int_range 0 100) = true.
Proof. vm_compute. reflexivity. Qed.

(** X16: The fake measurement repeats every 100 samples and stays between 0,
    its value at sample 0, and its value at sample 99, in binary64
    arithmetic. *)
Theorem fake_measurement_periodic_bounded :
  forall i,
    _fake_measurement (i + 100) = _fake_measurement i /\
    (0 <=? _fake_measurement i)%float = true /\
    (_fake_measurement i <=? _fake_measurement 99)%float = true /\
    _fake_measurement 0 = 0%float.
Proof.
  intros i.
  split.
  { rewrite (fake_measurement_mod (i + 100)), (fake_measurement_mod i).
    f_equal. replace (i + 100) with (i + 1 * 100) by lia.
    apply Z.mod_add. lia. }
  assert (Hin : In (i mod 100) (int_range 0 100)).
  { pose proof (Z.mod_pos_bound i 100 ltac:(lia)) as Hb.
    unfold int_range. apply in_map_iff.
    exists (Z.to_nat (i mod 100)). split; [lia|].
    apply in_seq. lia. }
  pose proof (proj1 (forallb_forall _ _) fake_measurement_table _ Hin) as Ht.
  cbv beta in Ht. apply andb_true_iff in Ht.
  rewrite (fake_measurement_mod i).
  destruct Ht as (Hlo & Hhi). repeat split; try assumption.
Qed.

(* ================================================================== *)
(** ** The text-file controls *)
(* ================================================================== *)

Lemma insert_sorted_In : forall x y l,
  In y (insert_sorted x l) <-> y = x \/ In y l.
Proof.
  intros x y l. induction l as [|z l IH]; simpl.
  - intuition.
  - destruct (x <=? z)%string; simpl; intuition.
Qed.

Lemma sorted_In : forall y l, In y (sorted l) <-> In y l.
Proof.
  intros y l. induction l as [|x l IH]; simpl; [tauto|].
  rewrite insert_sorted_In, IH. intuition.
Qed.

Lemma insert_sorted_perm : forall x l,
  Permutation (x :: l) (insert_sorted x l).
Proof.
  intros x l. induction l as [|z l IH]; simpl; [reflexivity|].
  destruct (x <=? z)%string; [reflexivity|].
  rewrite perm_swap. constructor. exact IH.
Qed.

Lemma sorted_perm : forall l, Permutation l (sorted l).
Proof.
  induction l as [|x l IH]; simpl; [constructor|].
  rewrite <- insert_sorted_perm. constructor. exact IH.
Qed.

Lemma insert_sorted_sorted : forall x l,
  string_sorted l -> string_sorted (insert_sorted x l).
Proof.
  intros x l Hl. induction Hl as [|z l Hl IH Hz]; simpl.
  - repeat constructor.
  - destruct (x <=? z)%string eqn:Hxz.
    + constructor; [constructor; assumption|]. constructor. exact Hxz.
    + constructor; [exact IH|].
      assert (Hzx : (z <=? x)%string = true).
      { destruct (String.leb_total x z) as [H|H]; congruence. }
      destruct Hz as [|w l Hzw]; simpl.
      * constructor. exact Hzx.
      * destruct (x <=? w)%string; constructor; assumption.
Qed.

Lemma sorted_sorted : forall l, string_sorted (sorted l).
Proof.
  induction l as [|x l IH]; simpl; [constructor|].
  apply insert_sorted_sorted. exact IH.
Qed.

Lemma existsb_eqb_false : forall p (l : list string),
  existsb (String.eqb p) l = false -> ~ In p l.
Proof.
  intros p l H Hin.
  assert (Ht : existsb (String.eqb p) l = true).
  { apply existsb_exists. exists p. split; [exact Hin|]. apply String.eqb_refl. }
  congruence.
Qed.

(** X17: [browse_txt]: a cancelled dialog changes nothing.  A chosen file
    becomes the selection and its text is shown; it is in the list
    afterwards, added once if it was missing, with the list then in
    sorted order, and the list left exactly as it was if the file was
    already there. *)
Theorem browse_txt_selects_file :
  forall fs path t,
    browse_txt fs "" t = t /\
    (path <> "" ->
     txt_var (browse_txt fs path t) = path /\
     txt_view (browse_txt fs path t) = shown_text fs path /\
     In path (txt_combo_values (browse_txt fs path t)) /\
     (In path (txt_combo_values t) ->
      txt_combo_values (browse_txt fs path t) = txt_combo_values t) /\
     (~ In path (txt_combo_values t) ->
      Permutation (path :: txt_combo_values t)
                  (txt_combo_values (browse_txt fs path t)) /\
      string_sorted (txt_combo_values (browse_txt fs path t)))).
Proof.
  intros fs path t. split; [reflexivity|].
  intros Hp. apply String.eqb_neq in Hp.
  unfold browse_txt, load_txt_file, shown_text. rewrite Hp. cbn.
  split; [reflexivity|]. split; [reflexivity|].
  destruct (existsb (String.eqb path) (txt_combo_values t)) eqn:Hex; cbn.
  - apply existsb_eqb_In in Hex.
    split; [exact Hex|]. split; [reflexivity|]. intros Hn. contradiction.
  - apply existsb_eqb_false in Hex.
    split; [apply sorted_In, in_or_app; right; left; reflexivity|].
    split; [intros Hin; contradiction|].
    intros _. split; [|apply sorted_sorted].
    rewrite <- sorted_perm. apply Permutation_cons_append.
Qed.

(** X18: Whatever files are browsed and whatever entries are picked, the
    list of the combobox stays in sorted order, the selection is one of
    its entries (and empty while there is none), and the text widget
    shows the selected file as the file system returns it, or the
    message of the error that reading it raised; for the empty path it
    shows nothing. *)
Theorem txt_dropdown_sorted_and_shown :
  forall fs cwd t,
    txt_reachable fs cwd t ->
    string_sorted (txt_combo_values t) /\
    match txt_combo_values t with
    | [] => txt_var t = ""
    | _ => In (txt_var t) (txt_combo_values t)
    end /\
    txt_view t =
      (if (txt_var t =? "")%string then "" else shown_text fs (txt_var t)).
Proof.
  intros fs cwd t Hr.
  induction Hr as [| path t Hr IH | path t Hr IH Hin].
  - unfold refresh_txt_dropdown, txt_tab_created.
    pose proof (sorted_sorted (glob_txt fs cwd)) as Hs.
    destruct (sorted (glob_txt fs cwd)) as [|first rest] eqn:Hl.
    + cbn. repeat split. constructor.
    + unfold load_txt_file, shown_text. cbn.
      destruct (first =? "")%string eqn:Hf; cbn; rewrite ?Hf; auto.
  - destruct IH as (Hs & Hsel & Hview).
    unfold browse_txt.
    destruct (path =? "")%string eqn:Hp; [auto|].
    unfold load_txt_file, shown_text. rewrite Hp. cbn. rewrite Hp.
    destruct (existsb (String.eqb path) (txt_combo_values t)) eqn:Hex; cbn.
    + apply existsb_eqb_In in Hex.
      split; [exact Hs|]. split; [|reflexivity].
      destruct (txt_combo_values t); [contradiction | exact Hex].
    + split; [apply sorted_sorted|]. split; [|reflexivity].
      assert (Hin : In path (sorted (txt_combo_values t ++ [path]))).
      { apply sorted_In, in_or_app. right. left. reflexivity. }
      destruct (sorted (txt_combo_values t ++ [path]));
        [contradiction | exact Hin].
  - destruct IH as (Hs & Hsel & Hview).
    unfold select_txt, load_txt_file, shown_text. cbn.
    destruct (path =? "")%string eqn:Hp; cbn; rewrite ?Hp;
      (split; [exact Hs|]); (split; [|reflexivity]);
      (destruct (txt_combo_values t); [contradiction | exact Hin]).
Qed.

(* ================================================================== *)
(** ** The further properties on concrete inputs *)
(* ================================================================== *)

Lemma connect_returned_is_connected_witness :
  is_connected (world_of (connect true working_device "COM3" (fresh None))) =
    Returned true (world_of (connect true working_device "COM3" (fresh None))).
Proof.
  apply (connect_returned_is_connected true working_device
           (fresh None) "COM3").
  reflexivity.
Defined.

Lemma disconnect_twice_witness :
  disconnect unclosable_device
    (world_of (disconnect unclosable_device
       (world_of (connect true unclosable_device "COM3" (fresh None))))) =
  Returned tt
    (world_of (disconnect unclosable_device
       (world_of (connect true unclosable_device "COM3" (fresh None))))).
Proof.
  apply (disconnect_twice unclosable_device
           (world_of (connect true unclosable_device "COM3" (fresh None)))).
  reflexivity.
Defined.

Lemma connect_disconnect_round_trip_witness :
  exists w1 w2 ok,
    connect true unclosable_device "COM3" (fresh None) = Returned tt w1 /\
    disconnect unclosable_device w1 = Returned tt w2 /\
    mgr w2 = mgr (fresh None) /\
    log w2 =
      [ {| ev_call := CallClose (mkSerial "COM3" 115200
                                   0x1.999999999999ap-4%float true);
           ev_ok := ok |};
        {| ev_call := CallOpen "COM3" 115200 0x1.999999999999ap-4%float;
           ev_ok := true |} ] /\
    unclosed (log w2) = 0%nat.
Proof.
  apply (connect_disconnect_round_trip true unclosable_device
           (fresh None) "COM3").
  - reflexivity.
  - discriminate.
  - reflexivity.
  - reflexivity.
  - reflexivity.
Defined.


Lemma only_connect_raises_witness :
  exists port,
    OpConnect "COM3" = OpConnect port /\
    ((true = false /\
      SerialException "could not open port" = CapabilityUnavailable) \/
     (true = true /\ port = "" /\
      SerialException "could not open port" = InvalidArgument) \/
     (true = true /\ port <> "" /\
      lib_open broken_device (log (fresh None)) port
        (baudrate (cfg (mgr (fresh None))))
        (timeout_s (cfg (mgr (fresh None)))) =
        Some (SerialException "could not open port"))).
Proof.
  destruct (only_connect_raises true broken_device (OpConnect "COM3")
              (fresh None) (SerialException "could not open port")
              (world_of (exec true broken_device (OpConnect "COM3")
                           (fresh None))))
    as (_ & _ & H & _).
  - reflexivity.
  - exact H.
Defined.

Lemma handle_opened_with_configuration_witness :
  ser_port (mkSerial "COM3" 115200 0x1.999999999999ap-4%float true) <> "" /\
  ser_baudrate (mkSerial "COM3" 115200 0x1.999999999999ap-4%float true) =
    baudrate (cfg (mgr (world_of
      (exec true working_device (OpConnect "COM3") (fresh None))))) /\
  ser_timeout (mkSerial "COM3" 115200 0x1.999999999999ap-4%float true) =
    timeout_s (cfg (mgr (world_of
      (exec true working_device (OpConnect "COM3") (fresh None))))).
Proof.
  apply (handle_opened_with_configuration true working_device
           (world_of (exec true working_device (OpConnect "COM3") (fresh None)))).
  - apply reachable_call; [apply reachable_fresh | reflexivity].
  - reflexivity.
Defined.

Lemma no_device_io_witness :
  forallb (fun e => negb (is_io_call (ev_call e)))
    (log (world_of (exec true working_device OpDisconnect
       (world_of (exec true working_device (OpConnect "COM3") (fresh None))))))
  = true.
Proof.
  apply (no_device_io true working_device).
  apply reachable_call; [|reflexivity].
  apply reachable_call; [apply reachable_fresh | reflexivity].
Defined.

Lemma connected_window_reachable :
  gui_reachable true working_device any_event true connected_window.
Proof.
  unfold connected_window, scanned_window.
  repeat (apply gui_handled; [| reflexivity | reflexivity | exact I]).
  apply gui_started.
Qed.

(** On the connected window a second click on the button is handled. *)
Lemma gui_handlers_return_witness :
  exists g', handle true working_device ClickConnect connected_window = Done tt g'.
Proof.
  apply (gui_handlers_return true working_device any_event true).
  - apply connected_window_reachable.
  - reflexivity.
Defined.

Lemma gui_status_matches_manager_witness :
  is_open (mkSerial "COM3" 115200 0x1.999999999999ap-4%float true) = true /\
  conn_status_var connected_window = "Connected: COM3" /\
  btn_connect_text connected_window = "Disconnect".
Proof.
  exact (gui_status_matches_manager true working_device any_event true
           connected_window connected_window_reachable).
Defined.

Lemma gui_opens_only_selectable_ports_witness :
  "COM3" <> "" /\
  startswith "COM3" "(" = false /\
  115200 = 115200 /\
  0x1.999999999999ap-4%float = 0x1.999999999999ap-4%float.
Proof.
  apply (gui_opens_only_selectable_ports true working_device any_event true
           connected_window "COM3" 115200 0x1.999999999999ap-4%float true).
  - apply connected_window_reachable.
  - left. reflexivity.
Defined.

Lemma gui_selection_listed_witness :
  In (com_var connected_window) (com_combo_values connected_window).
Proof.
  exact (gui_selection_listed true working_device any_event true
           connected_window connected_window_reachable).
Defined.

(** Started as main.py starts it, then Connect and Refresh clicked. *)
Lemma scan_disabled_makes_no_device_call_witness :
  log (serial_mgr
    (tab_of (handle true working_device ClickRefresh
      (tab_of (handle true working_device ClickConnect
        (tab_of (init_serial_ui true (setup_tab_created false)))))))) = [].
Proof.
  apply (scan_disabled_makes_no_device_call true working_device).
  repeat (apply gui_handled; [| reflexivity | reflexivity | exact I]).
  apply gui_started.
Defined.

(** Browsing to a file that is not listed yet, in a directory of two. *)
Lemma browse_txt_selects_file_witness :
  txt_var (browse_txt two_files "extra.txt"
             (refresh_txt_dropdown two_files "." txt_tab_created)) =
    "extra.txt" /\
  txt_combo_values (browse_txt two_files "extra.txt"
             (refresh_txt_dropdown two_files "." txt_tab_created)) =
    ["data.txt"; "extra.txt"; "notes.txt"].
Proof.
  destruct (browse_txt_selects_file two_files "extra.txt"
              (refresh_txt_dropdown two_files "." txt_tab_created))
    as (_ & H).
  destruct H as (Hvar & _); [discriminate|].
  split; [exact Hvar | reflexivity].
Defined.

Lemma txt_dropdown_sorted_and_shown_witness :
  string_sorted
    (txt_combo_values
       (browse_txt two_files "extra.txt"
          (refresh_txt_dropdown two_files "." txt_tab_created))) /\
  txt_view
    (browse_txt two_files "extra.txt"
       (refresh_txt_dropdown two_files "." txt_tab_created)) =
    "Failed to load file:" ++ newline ++ "Permission denied".
Proof.
  destruct (txt_dropdown_sorted_and_shown two_files "."
              (browse_txt two_files "extra.txt"
                 (refresh_txt_dropdown two_files "." txt_tab_created)))
    as (Hs & _ & Hv).
  - apply txt_browsed. apply txt_started.
  - split; [exact Hs | exact Hv].
Defined.
